(** * pubsub_logging.utils: a shallow embedding and its properties

    The module under study is [src/pubsub_logging/utils.py].  It has four
    functions: [compat_urlsafe_b64encode], [get_pubsub_client],
    [check_topic] and [publish_body].  They are glue around the Python
    standard library ([base64], [json], [str.encode]) and around a
    Pub/Sub client object with two methods, [topic_path] and [publish].

    Layout: Python data and exceptions ([Py]), the text codecs
    ([Codec]), [base64] ([Base64]), [json.dumps] ([Json]), a state and
    exception monad for the calls on the client ([Eff]), the four
    functions themselves ([Utils]), and then the properties. *)

From Stdlib Require Import ZArith List String Ascii Bool Lia DecimalString.
Import ListNotations.

Local Open Scope Z_scope.

(* ------------------------------------------------------------------ *)
(** ** Python values, strings and exceptions *)

Module Py.

(** A [str] is a sequence of Unicode code points, a [bytes] a sequence
    of octets; both are lists of integers, told apart by their range. *)
Definition pystr := list Z.
Definition pybytes := list Z.

Definition is_code_point (c : Z) : Prop := 0 <= c <= 1114111.
Definition is_octet (b : Z) : Prop := 0 <= b < 256.
Definition is_str (s : pystr) : Prop := Forall is_code_point s.
Definition is_bytes (b : pybytes) : Prop := Forall is_octet b.

(** A literal of the source, written as a Rocq string. *)
Definition py (s : string) : pystr :=
  map (fun a => Z.of_N (N_of_ascii a)) (list_ascii_of_string s).

Fixpoint startswith (s prefix : pystr) : bool :=
  match prefix, s with
  | [], _ => true
  | _ :: _, [] => false
  | p :: prefix', c :: s' => (p =? c) && startswith s' prefix'
  end.

(** [contains needle hay] is Python's [needle in hay] on strings. *)
Fixpoint contains (needle hay : pystr) : bool :=
  startswith hay needle ||
  match hay with
  | [] => false
  | _ :: hay' => contains needle hay'
  end.

(** Decimal and hexadecimal numerals, as [repr] and [format] print them. *)
Definition decimal (z : Z) : pystr := py (NilZero.string_of_int (Z.to_int z)).

Definition hex_digit (d : Z) : Z := if d <? 10 then 48 + d else 87 + d.

Fixpoint hex (width : nat) (z : Z) : pystr :=
  match width with
  | O => []
  | S w => hex w (z / 16) ++ [hex_digit (z mod 16)]
  end.

(** The values a payload is built from.  [PyObject cls] stands for an
    object of any other class, known by the name of its class; floats
    are left out. *)
#[warnings="-register-all"] Inductive pyvalue : Type :=
| PyNone
| PyBool (b : bool)
| PyInt (z : Z)
| PyStr (s : pystr)
| PyBytes (b : pybytes)
| PyList (items : list pyvalue)
| PyDict (items : list (pyvalue * pyvalue))
| PyObject (cls : string).

(** An exception object: its class, whether that class derives from
    [Exception] (as opposed to [BaseException] only, like
    [KeyboardInterrupt], [SystemExit] and [GeneratorExit]), the [args]
    it was built with, the text its [__str__] gives when it returns, the
    exception its [__str__] raises when it does not, and its
    [__context__]: the exception that was being handled when this one
    was raised (Python 3). *)
#[warnings="-register-all"] Inductive exn : Type := MkExn {
  exn_class : string;
  exn_is_Exception : bool;
  exn_args : list pyvalue;
  exn_str : pystr;
  exn_str_raises : option exn;
  exn_context : option exn
}.

(** An exception as it is built: its [__str__] returns, and it has no
    context yet. *)
Definition Exn (cls : string) (is_Exception : bool) (args : list pyvalue)
  (text : pystr) : exn :=
  MkExn cls is_Exception args text None None.

(** The exception [e] once it is raised while [handled] is being
    handled: the interpreter makes [handled] its [__context__]. *)
Definition during (handled e : exn) : exn :=
  MkExn (exn_class e) (exn_is_Exception e) (exn_args e) (exn_str e)
        (exn_str_raises e) (Some handled).

(** An exception of a standard class built from one message. *)
Definition std_error (cls : string) (msg : pystr) : exn :=
  Exn cls true [PyStr msg] msg.

(** The result of evaluating a Python expression or call. *)
Inductive outcome (A : Type) : Type :=
| Returns (a : A)
| Raises (e : exn).
Arguments Returns {A} a.
Arguments Raises {A} e.

Definition obind {A B} (r : outcome A) (k : A -> outcome B) : outcome B :=
  match r with
  | Returns a => k a
  | Raises e => Raises e
  end.

(** [str(e)] *)
Definition py_str (e : exn) : outcome pystr :=
  match exn_str_raises e with
  | Some e' => Raises e'
  | None => Returns (exn_str e)
  end.

End Py.
Import Py.

Notation "'do' x <~ c1 ; c2" := (obind c1 (fun x => c2))
  (at level 10, x name, c1 at level 100, c2 at level 200).

(* ------------------------------------------------------------------ *)
(** ** [str.encode] and [bytes.decode] for UTF-8 and ASCII *)

Module Codec.

(** How the message of a [UnicodeEncodeError] writes the character it
    is about. *)
Definition bad_char_repr (c : Z) : pystr :=
  if c <? 256 then py "\x" ++ hex 2 c
  else if c <? 65536 then py "\u" ++ hex 4 c
  else py "\U" ++ hex 8 c.

(** [UnicodeEncodeError(codec, object, start, end, reason)]: the
    characters [start] to [end - 1] of [object] could not be encoded. *)
Definition UnicodeEncodeError (codec : string) (object : pystr) (start stop : Z)
  (reason : string) : exn :=
  let place :=
    if stop =? start + 1 then
      py "character '" ++ bad_char_repr (nth (Z.to_nat start) object 0)
      ++ py "' in position " ++ decimal start
    else
      py "characters in position " ++ decimal start ++ py "-" ++ decimal (stop - 1) in
  Exn "UnicodeEncodeError" true
      [PyStr (py codec); PyStr object; PyInt start; PyInt stop; PyStr (py reason)]
      (py ("'" ++ codec ++ "' codec can't encode ") ++ place ++ py (": " ++ reason)).

(** [UnicodeDecodeError(codec, object, start, end, reason)]: the bytes
    [start] to [end - 1] of [object] could not be decoded. *)
Definition UnicodeDecodeError (codec : string) (object : pybytes) (start stop : Z)
  (reason : string) : exn :=
  let place :=
    if stop =? start + 1 then
      py "byte 0x" ++ hex 2 (nth (Z.to_nat start) object 0)
      ++ py " in position " ++ decimal start
    else
      py "bytes in position " ++ decimal start ++ py "-" ++ decimal (stop - 1) in
  Exn "UnicodeDecodeError" true
      [PyStr (py codec); PyBytes object; PyInt start; PyInt stop; PyStr (py reason)]
      (py ("'" ++ codec ++ "' codec can't decode ") ++ place ++ py (": " ++ reason)).

(** The length of the run of elements that satisfy [bad] at the head of
    a sequence: an encoder reports such a run as one error. *)
Fixpoint run_length (bad : Z -> bool) (s : list Z) : Z :=
  match s with
  | [] => 0
  | c :: s' => if bad c then 1 + run_length bad s' else 0
  end.

Definition is_surrogate_code (c : Z) : bool := (55296 <=? c) && (c <=? 57343).

(** The UTF-8 form of one code point; [None] for a surrogate, which
    the strict error handler refuses. *)
Definition utf8_encode_char (c : Z) : option pybytes :=
  if c <? 128 then Some [c]
  else if c <? 2048 then Some [192 + c / 64; 128 + c mod 64]
  else if c <? 65536 then
    if (55296 <=? c) && (c <=? 57343) then None
    else Some [224 + c / 4096; 128 + (c / 64) mod 64; 128 + c mod 64]
  else Some [240 + c / 262144; 128 + (c / 4096) mod 64;
             128 + (c / 64) mod 64; 128 + c mod 64].

Fixpoint utf8_encode_from (object : pystr) (pos : Z) (s : pystr) : outcome pybytes :=
  match s with
  | [] => Returns []
  | c :: s' =>
      match utf8_encode_char c with
      | None =>
          Raises (UnicodeEncodeError "utf-8" object pos
                    (pos + 1 + run_length is_surrogate_code s')
                    "surrogates not allowed")
      | Some bs =>
          do rest <~ utf8_encode_from object (pos + 1) s' ;
          Returns (bs ++ rest)
      end
  end.

(** [s.encode('UTF-8')], also [s.encode()]. *)
Definition utf8_encode (s : pystr) : outcome pybytes := utf8_encode_from s 0 s.

Definition is_continuation (b : Z) : bool := (128 <=? b) && (b <=? 191).

(** Whether [b1] may follow the lead byte [b0]: a continuation byte
    that gives neither an overlong form, nor a surrogate, nor a value
    above U+10FFFF. *)
Definition valid_second (b0 b1 : Z) : bool :=
  is_continuation b1
  && negb ((b0 =? 224) && (b1 <? 160))
  && negb ((b0 =? 237) && (159 <? b1))
  && negb ((b0 =? 240) && (b1 <? 144))
  && negb ((b0 =? 244) && (143 <? b1)).

(** An error at the sequence that starts at [pos], of which [valid]
    bytes were good; at the end of the data the error runs to the end. *)
Definition utf8_invalid (object : pybytes) (pos valid : Z) (reason : string)
  : outcome pystr :=
  Raises (UnicodeDecodeError "utf-8" object pos (pos + valid) reason).

Definition utf8_truncated (object : pybytes) (pos : Z) : outcome pystr :=
  Raises (UnicodeDecodeError "utf-8" object pos (Z.of_nat (List.length object))
            "unexpected end of data").

(** [b.decode('utf-8')] with the strict error handler: shortest forms
    only, no surrogates, nothing above U+10FFFF. *)
Fixpoint utf8_decode_from (object : pybytes) (pos : Z) (bs : pybytes) : outcome pystr :=
  match bs with
  | [] => Returns []
  | b0 :: r0 =>
      if b0 <? 128 then
        do rest <~ utf8_decode_from object (pos + 1) r0 ; Returns (b0 :: rest)
      else if b0 <? 194 then utf8_invalid object pos 1 "invalid start byte"
      else if b0 <? 224 then
        match r0 with
        | [] => utf8_truncated object pos
        | b1 :: r1 =>
            if negb (is_continuation b1)
            then utf8_invalid object pos 1 "invalid continuation byte"
            else
              do rest <~ utf8_decode_from object (pos + 2) r1 ;
              Returns ((b0 - 192) * 64 + (b1 - 128) :: rest)
        end
      else if b0 <? 240 then
        match r0 with
        | [] => utf8_truncated object pos
        | b1 :: r1 =>
            if negb (valid_second b0 b1)
            then utf8_invalid object pos 1 "invalid continuation byte"
            else
              match r1 with
              | [] => utf8_truncated object pos
              | b2 :: r2 =>
                  if negb (is_continuation b2)
                  then utf8_invalid object pos 2 "invalid continuation byte"
                  else
                    do rest <~ utf8_decode_from object (pos + 3) r2 ;
                    Returns ((b0 - 224) * 4096 + (b1 - 128) * 64 + (b2 - 128) :: rest)
              end
        end
      else if b0 <? 245 then
        match r0 with
        | [] => utf8_truncated object pos
        | b1 :: r1 =>
            if negb (valid_second b0 b1)
            then utf8_invalid object pos 1 "invalid continuation byte"
            else
              match r1 with
              | [] => utf8_truncated object pos
              | b2 :: r2 =>
                  if negb (is_continuation b2)
                  then utf8_invalid object pos 2 "invalid continuation byte"
                  else
                    match r2 with
                    | [] => utf8_truncated object pos
                    | b3 :: r3 =>
                        if negb (is_continuation b3)
                        then utf8_invalid object pos 3 "invalid continuation byte"
                        else
                          do rest <~ utf8_decode_from object (pos + 4) r3 ;
                          Returns ((b0 - 240) * 262144 + (b1 - 128) * 4096
                                   + (b2 - 128) * 64 + (b3 - 128) :: rest)
                    end
              end
        end
      else utf8_invalid object pos 1 "invalid start byte"
  end.

Definition utf8_decode (bs : pybytes) : outcome pystr := utf8_decode_from bs 0 bs.

(** [b.decode('ascii')]: the identity on bytes below 128, an error at
    the first other one. *)
Fixpoint ascii_decode_from (object : pybytes) (pos : Z) (bs : pybytes) : outcome pystr :=
  match bs with
  | [] => Returns []
  | b :: r =>
      if b <? 128 then
        do rest <~ ascii_decode_from object (pos + 1) r ; Returns (b :: rest)
      else
        Raises (UnicodeDecodeError "ascii" object pos (pos + 1)
                  "ordinal not in range(128)")
  end.

Definition ascii_decode (bs : pybytes) : outcome pystr := ascii_decode_from bs 0 bs.

(** [s.encode('ascii')]: the identity on code points below 128, an
    error at the first run of other ones. *)
Fixpoint ascii_encode_from (object : pystr) (pos : Z) (s : pystr) : outcome pybytes :=
  match s with
  | [] => Returns []
  | c :: r =>
      if c <? 128 then
        do rest <~ ascii_encode_from object (pos + 1) r ; Returns (c :: rest)
      else
        Raises (UnicodeEncodeError "ascii" object pos
                  (pos + 1 + run_length (fun c' => 128 <=? c') r)
                  "ordinal not in range(128)")
  end.

Definition ascii_encode (s : pystr) : outcome pybytes := ascii_encode_from s 0 s.

End Codec.

(* ------------------------------------------------------------------ *)
(** ** [base64.urlsafe_b64encode] and [base64.urlsafe_b64decode] *)

Module Base64.

Definition binascii_Error (msg : pystr) : exn := std_error "binascii.Error" msg.

(** The table of the 64 digits, by value. *)
Definition table_b2a_base64 : pybytes :=
  py "ABCDEFGHIJKLMNOPQRSTUVWXYZabcdefghijklmnopqrstuvwxyz0123456789+/".

Definition b2a_digit (n : Z) : Z := nth (Z.to_nat n) table_b2a_base64 0.

Definition BASE64_PAD : Z := 61.

(** [binascii.b2a_base64(s, newline=False)]: three octets give four
    digits; a last group of one or two octets is padded with [=]. *)
Fixpoint b2a_base64 (bs : pybytes) : pybytes :=
  match bs with
  | [] => []
  | [a] =>
      [b2a_digit (a / 4); b2a_digit ((a mod 4) * 16); BASE64_PAD; BASE64_PAD]
  | [a; b] =>
      [b2a_digit (a / 4); b2a_digit ((a mod 4) * 16 + b / 16);
       b2a_digit ((b mod 16) * 4); BASE64_PAD]
  | a :: b :: c :: rest =>
      [b2a_digit (a / 4); b2a_digit ((a mod 4) * 16 + b / 16);
       b2a_digit ((b mod 16) * 4 + c / 64); b2a_digit (c mod 64)]
      ++ b2a_base64 rest
  end.

Definition b64encode (s : pybytes) : pybytes := b2a_base64 s.

(** [bytes.maketrans(b'+/', b'-_')] and its converse. *)
Definition urlsafe_encode_translation (c : Z) : Z :=
  if c =? 43 then 45 else if c =? 47 then 95 else c.

Definition urlsafe_decode_translation (c : Z) : Z :=
  if c =? 45 then 43 else if c =? 95 then 47 else c.

Definition urlsafe_b64encode (s : pybytes) : pybytes :=
  map urlsafe_encode_translation (b64encode s).

(** The value of a digit, [None] for a character outside the alphabet. *)
Definition a2b_digit (ch : Z) : option Z :=
  if (65 <=? ch) && (ch <=? 90) then Some (ch - 65)
  else if (97 <=? ch) && (ch <=? 122) then Some (ch - 71)
  else if (48 <=? ch) && (ch <=? 57) then Some (ch + 4)
  else if ch =? 43 then Some 62
  else if ch =? 47 then Some 63
  else None.

(** The state of the decoding loop of [binascii.a2b_base64]. *)
Record a2b_state : Type := A2B {
  quad_pos : Z;
  leftchar : Z;
  pads : Z;
  bin_data : pybytes
}.

Definition a2b_init : a2b_state := A2B 0 0 0 [].

(** One digit of value [v] enters the current group of four. *)
Definition a2b_push (st : a2b_state) (v : Z) : a2b_state :=
  let out := bin_data st in
  let l := leftchar st in
  if quad_pos st =? 0 then A2B 1 v 0 out
  else if quad_pos st =? 1 then A2B 2 (v mod 16) 0 (out ++ [(l * 4 + v / 16) mod 256])
  else if quad_pos st =? 2 then A2B 3 (v mod 4) 0 (out ++ [(l * 16 + v / 4) mod 256])
  else A2B 0 0 0 (out ++ [(l * 64 + v) mod 256]).

Definition a2b_end (st : a2b_state) : outcome pybytes :=
  if quad_pos st =? 0 then Returns (bin_data st)
  else if quad_pos st =? 1 then
    Raises (binascii_Error
      (py "Invalid base64-encoded string: number of data characters ("
       ++ decimal (Z.of_nat (List.length (bin_data st)) / 3 * 4 + 1)
       ++ py ") cannot be 1 more than a multiple of 4"))
  else Raises (binascii_Error (py "Incorrect padding")).

(** The loop, not in strict mode: characters outside the alphabet are
    skipped, and a complete run of padding ends the parse. *)
Fixpoint a2b_loop (st : a2b_state) (ascii_data : pybytes) : outcome pybytes :=
  match ascii_data with
  | [] => a2b_end st
  | ch :: rest =>
      if ch =? BASE64_PAD then
        if 2 <=? quad_pos st then
          if 4 <=? quad_pos st + (pads st + 1) then Returns (bin_data st)
          else a2b_loop (A2B (quad_pos st) (leftchar st) (pads st + 1) (bin_data st)) rest
        else a2b_loop st rest
      else
        match a2b_digit ch with
        | None => a2b_loop st rest
        | Some v => a2b_loop (a2b_push st v) rest
        end
  end.

Definition a2b_base64 (data : pybytes) : outcome pybytes := a2b_loop a2b_init data.

Definition b64decode (s : pybytes) : outcome pybytes := a2b_base64 s.

(** [urlsafe_b64decode] of a [bytes] argument. *)
Definition urlsafe_b64decode_bytes (s : pybytes) : outcome pybytes :=
  b64decode (map urlsafe_decode_translation s).

(** [urlsafe_b64decode] of a [str] argument: it has to be ASCII. *)
Definition urlsafe_b64decode_str (s : pystr) : outcome pybytes :=
  match Codec.ascii_encode s with
  | Returns b => urlsafe_b64decode_bytes b
  | Raises _ =>
      Raises (std_error "ValueError"
                (py "string argument should contain only ASCII characters"))
  end.

End Base64.

(* ------------------------------------------------------------------ *)
(** ** [json.dumps] with its default arguments *)

Module Json.

(** [ensure_ascii=True]: printable ASCII stays, the quote, the
    backslash and five control characters get a short escape, every
    other code point a [\uXXXX] escape (a surrogate pair above
    U+FFFF). *)
Definition escape_char (c : Z) : pystr :=
  if c =? 92 then [92; 92]
  else if c =? 34 then [92; 34]
  else if c =? 8 then [92; 98]
  else if c =? 12 then [92; 102]
  else if c =? 10 then [92; 110]
  else if c =? 13 then [92; 114]
  else if c =? 9 then [92; 116]
  else if (32 <=? c) && (c <=? 126) then [c]
  else if c <? 65536 then [92; 117] ++ hex 4 c
  else
    let n := c - 65536 in
    [92; 117] ++ hex 4 (55296 + (n / 1024) mod 1024)
    ++ [92; 117] ++ hex 4 (56320 + n mod 1024).

Definition encode_basestring_ascii (s : pystr) : pystr :=
  [34] ++ flat_map escape_char s ++ [34].

Definition class_name (o : pyvalue) : string :=
  match o with
  | PyNone => "NoneType"
  | PyBool _ => "bool"
  | PyInt _ => "int"
  | PyStr _ => "str"
  | PyBytes _ => "bytes"
  | PyList _ => "list"
  | PyDict _ => "dict"
  | PyObject cls => cls
  end.

Definition not_serializable (o : pyvalue) : exn :=
  std_error "TypeError"
    (py ("Object of type " ++ class_name o ++ " is not JSON serializable")).

Definition bad_key (k : pyvalue) : exn :=
  std_error "TypeError"
    (py ("keys must be str, int, float, bool or None, not " ++ class_name k)).

(** The text a dictionary key is written as. *)
Definition key_text (k : pyvalue) : outcome pystr :=
  match k with
  | PyStr s => Returns s
  | PyBool true => Returns (py "true")
  | PyBool false => Returns (py "false")
  | PyInt z => Returns (decimal z)
  | PyNone => Returns (py "null")
  | _ => Raises (bad_key k)
  end.

Definition item_separator (first : bool) : pystr :=
  if first then [] else py ", ".

Fixpoint encode (o : pyvalue) : outcome pystr :=
  match o with
  | PyStr s => Returns (encode_basestring_ascii s)
  | PyNone => Returns (py "null")
  | PyBool true => Returns (py "true")
  | PyBool false => Returns (py "false")
  | PyInt z => Returns (decimal z)
  | PyList items =>
      let fix encode_list (first : bool) (l : list pyvalue) : outcome pystr :=
        match l with
        | [] => Returns []
        | x :: l' =>
            do sx <~ encode x ;
            do sl <~ encode_list false l' ;
            Returns (item_separator first ++ sx ++ sl)
        end in
      do body <~ encode_list true items ;
      Returns (py "[" ++ body ++ py "]")
  | PyDict items =>
      let fix encode_dict (first : bool) (l : list (pyvalue * pyvalue)) : outcome pystr :=
        match l with
        | [] => Returns []
        | (k, v) :: l' =>
            do sk <~ key_text k ;
            do sv <~ encode v ;
            do sl <~ encode_dict false l' ;
            Returns (item_separator first ++ encode_basestring_ascii sk
                     ++ py ": " ++ sv ++ sl)
        end in
      do body <~ encode_dict true items ;
      Returns (py "{" ++ body ++ py "}")
  | PyBytes _ | PyObject _ => Raises (not_serializable o)
  end.

Definition dumps (obj : pyvalue) : outcome pystr := encode obj.

End Json.

(* ------------------------------------------------------------------ *)
(** ** Calls on the client: state, a log of calls, exceptions *)

Module Eff.

(** What the module asks of the Pub/Sub library, as it is logged. *)
Inductive call : Type :=
| NewPublisherClient
| TopicPath (project topic : pyvalue)
| Publish (topic : pyvalue) (data : pybytes).

(** The world a function of the module runs in: the state of the
    Pub/Sub library and of the service behind it (of a type [S] the
    module knows nothing about), the calls made on it so far, and the
    exceptions whose traceback was printed on [sys.stderr]. *)
Record world (S : Type) : Type := World {
  service : S;
  calls : list call;
  stderr : list exn
}.
Arguments World {S} _ _ _.
Arguments service {S} _.
Arguments calls {S} _.
Arguments stderr {S} _.

Definition M (S A : Type) : Type := world S -> outcome A * world S.

Definition ret {S A} (a : A) : M S A := fun w => (Returns a, w).

Definition raise {S A} (e : exn) : M S A := fun w => (Raises e, w).

Definition bind {S A B} (m : M S A) (k : A -> M S B) : M S B :=
  fun w =>
    match m w with
    | (Returns a, w') => k a w'
    | (Raises e, w') => (Raises e, w')
    end.

(** A pure computation of the standard library. *)
Definition lift {S A} (r : outcome A) : M S A := fun w => (r, w).

(** [try: body / except Exception as e: handler e].  The clause takes
    the instances of [Exception]; any other exception goes through. *)
Definition try_except_Exception {S A} (body : M S A) (handler : exn -> M S A) : M S A :=
  fun w =>
    match body w with
    | (Returns a, w') => (Returns a, w')
    | (Raises e, w') =>
        if exn_is_Exception e then handler e w' else (Raises e, w')
    end.

(** Inside the [except] block that handles [handled]: a call that
    raises, and a [raise] of a new exception, give an exception whose
    [__context__] is [handled]; a bare [raise] gives [handled] itself,
    untouched. *)
Definition lift_during {S A} (handled : exn) (r : outcome A) : M S A :=
  fun w =>
    match r with
    | Returns a => (Returns a, w)
    | Raises e => (Raises (during handled e), w)
    end.

Definition raise_during {S A} (handled e : exn) : M S A :=
  raise (during handled e).

Definition reraise {S A} (handled : exn) : M S A := raise handled.

(** [traceback.print_exc(file=sys.stderr)] while [e] is handled. *)
Definition print_exc {S} (e : exn) : M S unit :=
  fun w => (Returns tt, World (service w) (calls w) (stderr w ++ [e])).

(** A publisher client: an object with the two methods the module
    calls.  A method reads and changes the state of the service, and
    returns or raises. *)
Record client (S : Type) : Type := Client {
  topic_path : pyvalue -> pyvalue -> S -> outcome pyvalue * S;
  publish : pyvalue -> pybytes -> S -> outcome pyvalue * S
}.
Arguments Client {S} _ _.
Arguments topic_path {S} _ _ _ _.
Arguments publish {S} _ _ _ _.

Definition logged {S A} (c : call) (method : S -> outcome A * S) : M S A :=
  fun w =>
    let (r, s') := method (service w) in
    (r, World s' (calls w ++ [c]) (stderr w)).

(** [client.topic_path(project, topic)] *)
Definition call_topic_path {S} (c : client S) (project topic : pyvalue) : M S pyvalue :=
  logged (TopicPath project topic) (topic_path c project topic).

(** [client.publish(topic, data=data)] *)
Definition call_publish {S} (c : client S) (topic : pyvalue) (data : pybytes) : M S pyvalue :=
  logged (Publish topic data) (publish c topic data).

(** [pubsub_v1.PublisherClient()] *)
Definition call_PublisherClient {S} (ctor : S -> outcome (client S) * S) : M S (client S) :=
  logged NewPublisherClient ctor.

Definition is_publish (c : call) : bool :=
  match c with Publish _ _ => true | _ => false end.

Definition is_construction (c : call) : bool :=
  match c with NewPublisherClient => true | _ => false end.

(** How often [publish] was called, and the library's constructor. *)
Definition publish_count (l : list call) : nat := List.length (filter is_publish l).
Definition construction_count (l : list call) : nat := List.length (filter is_construction l).

End Eff.
Import Eff.

Notation "x <- c1 ;; c2" := (bind c1 (fun x => c2))
  (at level 61, c1 at next level, right associativity).
Notation "c1 ;;; c2" := (bind c1 (fun _ => c2))
  (at level 61, right associativity).

(* ------------------------------------------------------------------ *)
(** ** The module [pubsub_logging.utils] *)

Module Utils.

(** Modelled from the spec: the class [RecoverableError] of
    [pubsub_logging.errors], which is not among the sources.  The spec
    calls it a marker error type, distinct from the library's own
    errors; [RecoverableError()] is an instance built with no
    argument, so its [args] are empty and so is its text. *)
Definition RecoverableError : exn := Exn "RecoverableError" true [] [].

(** The globals the module body binds when it is imported. *)
Record module_globals (S : Type) : Type := Globals {
  PUBSUB_SCOPES : list pystr;
  published_client : client S
}.
Arguments Globals {S} _ _.
Arguments PUBSUB_SCOPES {S} _.
Arguments published_client {S} _.

(** The module body: [published_client = pubsub_v1.PublisherClient()]. *)
Definition import_module {S} (PublisherClient : S -> outcome (client S) * S)
  : M S (module_globals S) :=
  c <- call_PublisherClient PublisherClient ;;
  ret (Globals [py "https://www.googleapis.com/auth/pubsub"] c).

(** [compat_urlsafe_b64encode(v)], with [sys.version_info[0]] as
    [version_major].  On Python 3 [v] is a [str]; on Python 2 a [str]
    is a byte string. *)
Definition compat_urlsafe_b64encode (version_major : Z) (v : list Z) : outcome (list Z) :=
  if 3 <=? version_major then
    do b <~ Codec.utf8_encode v ;
    Codec.ascii_decode (Base64.urlsafe_b64encode b)
  else
    Returns (Base64.urlsafe_b64encode v).

(** [get_pubsub_client(http=None, credentials=None)] *)
Definition get_pubsub_client {S} (g : module_globals S) (http credentials : pyvalue)
  : M S (client S) :=
  ret (published_client g).

(** [check_topic(client, project_id, topic)] *)
Definition check_topic {S} (client : client S) (project_id topic : pyvalue) : M S pyvalue :=
  try_except_Exception
    (call_topic_path client project_id topic ;;;
     ret (PyBool true))
    (fun e =>
       print_exc e ;;;
       ret (PyBool false)).

(** [publish_body(client, body, project_id, topic)] *)
Definition publish_body {S} (client : client S) (body project_id topic : pyvalue)
  : M S pyvalue :=
  try_except_Exception
    (topic_path <- call_topic_path client project_id topic ;;
     text <- lift (Json.dumps body) ;;
     data <- lift (Codec.utf8_encode text) ;;
     call_publish client topic_path data ;;;
     ret PyNone)
    (fun e =>
       err_str <- lift_during e (py_str e) ;;
       if negb (contains (py "200") err_str) then
         reraise e
       else
         raise_during e RecoverableError).

End Utils.
Import Utils.

(* ------------------------------------------------------------------ *)
(** ** Clients and exceptions to run the module on *)

Module Fixtures.

(** The service keeps the messages it accepted, oldest first. *)
Definition broker : Type := list (pyvalue * pybytes).

(** A stand-in for the library's [topic_path], to run the module on
    string arguments: the path of a project and a topic given as
    strings.  The library formats any value; the stand-in knows strings
    only and refuses the rest, so it is used at strings alone. *)
Definition format_topic_path (project topic : pyvalue) : outcome pyvalue :=
  match project, topic with
  | PyStr p, PyStr t =>
      Returns (PyStr (py "projects/" ++ p ++ py "/topics/" ++ t))
  | _, _ => Raises (std_error "TypeError" (py "project and topic must be str"))
  end.

(** A client whose [publish] accepts every message and hands back a
    future. *)
Definition accepting_client : client broker :=
  Client (fun project topic s => (format_topic_path project topic, s))
         (fun path data s => (Returns (PyObject "Future"), s ++ [(path, data)])).

(** A client whose [publish] raises [e]. *)
Definition rejecting_client (e : exn) : client broker :=
  Client (fun project topic s => (format_topic_path project topic, s))
         (fun path data s => (Raises e, s)).

(** A client whose [topic_path] raises [e]. *)
Definition unresolving_client (e : exn) : client broker :=
  Client (fun project topic s => (Raises e, s))
         (fun path data s => (Returns (PyObject "Future"), s ++ [(path, data)])).

Definition deadline_exceeded : exn :=
  Exn "DeadlineExceeded" true [PyStr (py "Deadline exceeded (200)")]
      (py "Deadline exceeded (200)").

Definition forbidden : exn :=
  Exn "Forbidden" true [PyStr (py "403 Forbidden")] (py "403 Forbidden").

(** [SystemExit(200)] and [KeyboardInterrupt('200')] derive from
    [BaseException] and not from [Exception]. *)
Definition system_exit_200 : exn := Exn "SystemExit" false [PyInt 200] (py "200").

Definition keyboard_interrupt_200 : exn :=
  Exn "KeyboardInterrupt" false [PyStr (py "200")] (py "200").

Definition keyboard_interrupt : exn := Exn "KeyboardInterrupt" false [] [].

Definition start : world broker := World [] [] [].

Definition hello : pyvalue := PyDict [(PyStr (py "msg"), PyStr (py "hello"))].

(** A payload with an object [json] cannot write; the name of its
    class ends up in the text of the [TypeError]. *)
Definition unserializable_200 : pyvalue :=
  PyDict [(PyStr (py "status"), PyObject "Http200")].

Definition unserializable : pyvalue :=
  PyDict [(PyStr (py "when"), PyObject "datetime")].

(** The bytes [{"msg": "hello"}], and the project and the topic of the
    example. *)
Definition hello_json : pybytes :=
  [123; 34; 109; 115; 103; 34; 58; 32; 34; 104; 101; 108; 108; 111; 34; 125].

Definition proj1 : pyvalue := PyStr (py "proj1").
Definition logs : pyvalue := PyStr (py "logs").


(** A constructor of the library that gives the accepting client. *)
Definition new_accepting_client (s : broker) : outcome (client broker) * broker :=
  (Returns accepting_client, s).

End Fixtures.

(** What leaves [publish_body] when [e] is raised inside its [try]
    block: the [except Exception] clause, the call [str(e)] and the test
    on the text. *)
Definition surfaced (e : exn) : exn :=
  if exn_is_Exception e then
    match py_str e with
    | Raises e' => during e e'
    | Returns err_str =>
        if negb (contains (py "200") err_str) then e
        else during e RecoverableError
    end
  else e.

(** The world once [topic_path] was called and left the service in [s],
    and once [publish] was called as well. *)
Definition after_path {S} (w : world S) (project_id topic : pyvalue) (s : S) : world S :=
  World s (calls w ++ [TopicPath project_id topic]) (stderr w).

Definition after_publish {S} (w : world S) (project_id topic : pyvalue) (s : S)
  (path : pyvalue) (data : pybytes) : world S :=
  World s (calls w ++ [TopicPath project_id topic; Publish path data]) (stderr w).

(** A code point of the surrogate range, U+D800 to U+DFFF. *)
Definition is_surrogate (c : Z) : Prop := 55296 <= c <= 57343.

(** Decoding what [compat_urlsafe_b64encode] gave: [urlsafe_b64decode],
    then [decode('utf-8')]. *)
Definition urlsafe_b64decode_utf8 (r : pystr) : outcome pystr :=
  do b <~ Base64.urlsafe_b64decode_str r ;
  Codec.utf8_decode b.

(** A digit as [urlsafe_b64encode] writes it and as the decoder reads
    it after its own translation. *)
Definition written_digit (n : Z) : Z :=
  Base64.urlsafe_encode_translation (Base64.b2a_digit n).

Definition read_back (ch : Z) : Z := Base64.urlsafe_decode_translation ch.

(** Successive calls of [get_pubsub_client], one per pair of arguments. *)
Fixpoint get_pubsub_client_each {S} (g : module_globals S)
  (args : list (pyvalue * pyvalue)) : M S (list (client S)) :=
  match args with
  | [] => ret []
  | (http, credentials) :: rest =>
      c <- get_pubsub_client g http credentials ;;
      cs <- get_pubsub_client_each g rest ;;
      ret (c :: cs)
  end.

(** Printable ASCII, U+0020 to U+007E. *)
Definition printable (c : Z) : Prop := 32 <= c <= 126.

(** The characters of URL-safe base64: the letters, the digits, [-] and
    [_], and the padding [=]. *)
Definition is_urlsafe_char (c : Z) : bool :=
  ((65 <=? c) && (c <=? 90)) || ((97 <=? c) && (c <=? 122))
  || ((48 <=? c) && (c <=? 57)) || (c =? 45) || (c =? 95) || (c =? 61).

(** Linear arithmetic with division and remainder by a constant. *)
Ltac div_lia := Z.to_euclidean_division_equations; lia.

(** Settle the comparisons of a goal from the bounds at hand. *)
Ltac settle_tests :=
  repeat match goal with
    | |- context [?a <? ?b] =>
        first [ replace (a <? b) with true by (symmetry; apply Z.ltb_lt; div_lia)
              | replace (a <? b) with false by (symmetry; apply Z.ltb_ge; div_lia) ]
    | |- context [?a <=? ?b] =>
        first [ replace (a <=? b) with true by (symmetry; apply Z.leb_le; div_lia)
              | replace (a <=? b) with false by (symmetry; apply Z.leb_gt; div_lia) ]
    | |- context [?a =? ?b] =>
        first [ replace (a =? b) with true by (symmetry; apply Z.eqb_eq; div_lia)
              | replace (a =? b) with false by (symmetry; apply Z.eqb_neq; div_lia) ]
    end.

(** The same, with a case analysis on the equality tests that are left. *)
Ltac split_tests :=
  settle_tests;
  repeat (match goal with
          | |- context [?a =? ?b] => destruct (Z.eqb_spec a b)
          end; cbn [andb negb]; settle_tests);
  cbn [andb negb].

(** Split a goal [Forall printable l] along the conses and appends of [l]. *)
Ltac split_printable :=
  repeat first [ apply Forall_nil
               | apply Forall_cons; [unfold printable; lia|]
               | apply Forall_app; split ].

(* ------------------------------------------------------------------ *)
(** ** How [publish_body] and [check_topic] run *)

Section Running.

Context {S : Type}.
Variable client : client S.
Variables body project_id topic : pyvalue.
Variable w : world S.

(** [publish_body], step by step. *)
Lemma publish_body_run :
  publish_body client body project_id topic w =
  match topic_path client project_id topic (service w) with
  | (Raises e, s1) => (Raises (surfaced e), after_path w project_id topic s1)
  | (Returns path, s1) =>
      match Json.dumps body with
      | Raises e => (Raises (surfaced e), after_path w project_id topic s1)
      | Returns text =>
          match Codec.utf8_encode text with
          | Raises e => (Raises (surfaced e), after_path w project_id topic s1)
          | Returns data =>
              match publish client path data s1 with
              | (Raises e, s2) => (Raises (surfaced e), after_publish w project_id topic s2 path data)
              | (Returns _, s2) => (Returns PyNone, after_publish w project_id topic s2 path data)
              end
          end
      end
  end.
Proof.
  unfold publish_body, try_except_Exception, bind, call_topic_path,
    call_publish, logged, lift, lift_during, raise_during, reraise, ret, raise,
    surfaced, after_path, after_publish.
  destruct (topic_path client project_id topic (service w)) as [[path|e] s1];
    cbn [service calls stderr].
  - destruct (Json.dumps body) as [text|e].
    + destruct (Codec.utf8_encode text) as [data|e].
      * destruct (publish client path data s1) as [[future|e] s2];
          cbn [service calls stderr]; rewrite <- app_assoc; cbn [app].
        -- reflexivity.
        -- destruct (exn_is_Exception e); [|reflexivity].
           destruct (py_str e) as [err_str|e']; [|reflexivity].
           destruct (contains (py "200") err_str); reflexivity.
      * destruct (exn_is_Exception e); [|reflexivity].
        destruct (py_str e) as [err_str|e']; [|reflexivity].
        destruct (contains (py "200") err_str); reflexivity.
    + destruct (exn_is_Exception e); [|reflexivity].
      destruct (py_str e) as [err_str|e']; [|reflexivity].
      destruct (contains (py "200") err_str); reflexivity.
  - destruct (exn_is_Exception e); [|reflexivity].
    destruct (py_str e) as [err_str|e']; [|reflexivity].
    destruct (contains (py "200") err_str); reflexivity.
Qed.

(** [check_topic], step by step. *)
Lemma check_topic_run :
  check_topic client project_id topic w =
  match topic_path client project_id topic (service w) with
  | (Returns _, s1) => (Returns (PyBool true), after_path w project_id topic s1)
  | (Raises e, s1) =>
      if exn_is_Exception e then
        (Returns (PyBool false),
         World s1 (calls w ++ [TopicPath project_id topic]) (stderr w ++ [e]))
      else (Raises e, after_path w project_id topic s1)
  end.
Proof.
  unfold check_topic, try_except_Exception, bind, call_topic_path, logged,
    print_exc, ret, after_path.
  destruct (topic_path client project_id topic (service w)) as [[path|e] s1];
    cbn [service calls stderr]; [reflexivity|].
  destruct (exn_is_Exception e); reflexivity.
Qed.

End Running.

(** The text of [RecoverableError()] has no ["200"] in it, so the
    marker is never the exception it replaces. *)
Lemma RecoverableError_fresh (e : exn) (err_str : pystr) :
  py_str e = Returns err_str ->
  contains (py "200") err_str = true ->
  during e RecoverableError <> e.
Proof.
  intros Hstr H200 Heq. rewrite <- Heq in Hstr.
  unfold py_str in Hstr. cbn in Hstr. injection Hstr as <-.
  vm_compute in H200. discriminate H200.
Qed.

Lemma surfaced_permanent (e : exn) (err_str : pystr) :
  py_str e = Returns err_str ->
  contains (py "200") err_str = false ->
  surfaced e = e.
Proof.
  unfold surfaced. intros -> ->. destruct (exn_is_Exception e); reflexivity.
Qed.

Lemma surfaced_recoverable (e : exn) (err_str : pystr) :
  exn_is_Exception e = true ->
  py_str e = Returns err_str ->
  contains (py "200") err_str = true ->
  surfaced e = during e RecoverableError.
Proof.
  unfold surfaced. intros -> -> ->. reflexivity.
Qed.

Lemma publish_count_app (l1 l2 : list call) :
  publish_count (l1 ++ l2) = (publish_count l1 + publish_count l2)%nat.
Proof.
  unfold publish_count. rewrite filter_app, length_app. reflexivity.
Qed.

(** Whenever [publish_body] returns, path resolution, serialization
    and [publish] all went through, in this order. *)
Lemma publish_body_returns_inv {S} (client : client S) (body project_id topic : pyvalue)
  (w w' : world S) (v : pyvalue) :
  publish_body client body project_id topic w = (Returns v, w') ->
  exists path s1 text data future s2,
    topic_path client project_id topic (service w) = (Returns path, s1)
    /\ Json.dumps body = Returns text
    /\ Codec.utf8_encode text = Returns data
    /\ publish client path data s1 = (Returns future, s2)
    /\ v = PyNone
    /\ w' = after_publish w project_id topic s2 path data.
Proof.
  rewrite publish_body_run.
  destruct (topic_path client project_id topic (service w)) as [[path|e] s1] eqn:Hpath;
    [|discriminate].
  destruct (Json.dumps body) as [text|e] eqn:Hdumps; [|discriminate].
  destruct (Codec.utf8_encode text) as [data|e] eqn:Hencode; [|discriminate].
  destruct (publish client path data s1) as [[future|e] s2] eqn:Hpublish; [|discriminate].
  intros H. injection H as <- <-.
  exists path, s1, text, data, future, s2. repeat split; assumption.
Qed.

(* ------------------------------------------------------------------ *)
(** ** What [json.dumps] raises *)

Lemma key_text_raises (k : pyvalue) (e : exn) :
  Json.key_text k = Raises e ->
  exn_is_Exception e = true /\ py_str e = Returns (exn_str e).
Proof.
  destruct k as [ |[|]| | | | | | ]; cbn; intros H;
    try discriminate H; injection H as <-; split; reflexivity.
Qed.

(** Every error of the encoder is a [TypeError]: an instance of
    [Exception], whose [str] returns. *)
Lemma encode_raises :
  forall (o : pyvalue) (e : exn),
    Json.encode o = Raises e ->
    exn_is_Exception e = true /\ py_str e = Returns (exn_str e).
Proof.
  fix IH 1. intros o e.
  destruct o as [ |[|]|z|s|b|items|items|cls]; cbn [Json.encode];
    try discriminate.
  - (* bytes *)
    intros H. injection H as <-. split; reflexivity.
  - (* a list *)
    match goal with
    | |- obind (?f true items) _ = _ -> _ => set (encode_list := f)
    end.
    assert (Hlist : forall first e', encode_list first items = Raises e' ->
                      exn_is_Exception e' = true /\ py_str e' = Returns (exn_str e')).
    { clear e. induction items as [|x l IHl]; intros first e'; cbn.
      - discriminate.
      - destruct (Json.encode x) as [sx|ex] eqn:Hx; cbn.
        + fold encode_list. destruct (encode_list false l) as [sl|el] eqn:Hl; cbn.
          * discriminate.
          * intros H. injection H as <-. exact (IHl false el Hl).
        + intros H. injection H as <-. exact (IH x ex Hx). }
    destruct (encode_list true items) as [b|eb] eqn:Hb; cbn.
    + discriminate.
    + intros H. injection H as <-. exact (Hlist true eb Hb).
  - (* a dictionary *)
    match goal with
    | |- obind (?f true items) _ = _ -> _ => set (encode_dict := f)
    end.
    assert (Hdict : forall first e', encode_dict first items = Raises e' ->
                      exn_is_Exception e' = true /\ py_str e' = Returns (exn_str e')).
    { clear e. induction items as [|[k v] l IHl]; intros first e'; cbn.
      - discriminate.
      - destruct (Json.key_text k) as [sk|ek] eqn:Hk; cbn.
        + destruct (Json.encode v) as [sv|ev] eqn:Hv; cbn.
          * fold encode_dict. destruct (encode_dict false l) as [sl|el] eqn:Hl; cbn.
            -- discriminate.
            -- intros H. injection H as <-. exact (IHl false el Hl).
          * intros H. injection H as <-. exact (IH v ev Hv).
        + intros H. injection H as <-. exact (key_text_raises k ek Hk). }
    destruct (encode_dict true items) as [b|eb] eqn:Hb; cbn.
    + discriminate.
    + intros H. injection H as <-. exact (Hdict true eb Hb).
  - (* any other object *)
    intros H. injection H as <-. split; reflexivity.
Qed.

Lemma dumps_raises (o : pyvalue) (e : exn) :
  Json.dumps o = Raises e ->
  exn_is_Exception e = true /\ py_str e = Returns (exn_str e).
Proof. exact (encode_raises o e). Qed.

(* ------------------------------------------------------------------ *)
(** ** [publish_body]: which exception leaves it *)

(** C1, as amended.  When [publish] raises an instance of [Exception]
    whose [str] returns a text that contains ["200"], [publish_body]
    raises [RecoverableError()] and not the exception [publish] raised.
    The marker is built with no argument, so its [args] and its text
    are empty; it does carry the original exception, which the
    interpreter attaches to it as [__context__]. *)
Theorem publish_body_recoverable {S} (client : client S)
  (body project_id topic : pyvalue) (w : world S)
  (path : pyvalue) (s1 s2 : S) (text : pystr) (data : pybytes)
  (e : exn) (err_str : pystr) :
  topic_path client project_id topic (service w) = (Returns path, s1) ->
  Json.dumps body = Returns text ->
  Codec.utf8_encode text = Returns data ->
  publish client path data s1 = (Raises e, s2) ->
  exn_is_Exception e = true ->
  py_str e = Returns err_str ->
  contains (py "200") err_str = true ->
  exists raised,
    publish_body client body project_id topic w
      = (Raises raised, after_publish w project_id topic s2 path data)
    /\ raised = during e RecoverableError
    /\ raised <> e
    /\ exn_class raised = exn_class RecoverableError
    /\ exn_args raised = []
    /\ py_str raised = Returns []
    /\ exn_context raised = Some e.
Proof.
  intros Hpath Hdumps Hencode Hpublish Hexc Hstr H200.
  exists (during e RecoverableError).
  rewrite publish_body_run, Hpath, Hdumps, Hencode, Hpublish.
  rewrite (surfaced_recoverable e err_str Hexc Hstr H200).
  split; [reflexivity|]. split; [reflexivity|].
  split; [exact (RecoverableError_fresh e err_str Hstr H200)|].
  repeat split.
Qed.

Lemma publish_body_recoverable_witness :
  exists raised,
    publish_body (Fixtures.rejecting_client Fixtures.deadline_exceeded)
      Fixtures.hello Fixtures.proj1 Fixtures.logs Fixtures.start
      = (Raises raised,
         after_publish Fixtures.start Fixtures.proj1 Fixtures.logs []
           (PyStr (py "projects/proj1/topics/logs")) Fixtures.hello_json)
    /\ raised = during Fixtures.deadline_exceeded RecoverableError
    /\ raised <> Fixtures.deadline_exceeded
    /\ exn_class raised = exn_class RecoverableError
    /\ exn_args raised = []
    /\ py_str raised = Returns []
    /\ exn_context raised = Some Fixtures.deadline_exceeded.
Proof.
  apply (publish_body_recoverable
           (Fixtures.rejecting_client Fixtures.deadline_exceeded)
           Fixtures.hello Fixtures.proj1 Fixtures.logs Fixtures.start
           (PyStr (py "projects/proj1/topics/logs")) [] []
           (Fixtures.hello_json) Fixtures.hello_json Fixtures.deadline_exceeded
           (py "Deadline exceeded (200)"));
    reflexivity.
Defined.

(** C1 as it is stated fails, on two counts.  [SystemExit(200)] has the
    text ["200"], yet it is no instance of [Exception]: the [except]
    clause lets it through and [publish_body] raises it, not a
    [RecoverableError].  And when [publish] raises the instance of
    [Exception] with the text ["Deadline exceeded (200)"], the
    [RecoverableError] that leaves [publish_body] has that very
    exception, text and all, as its [__context__]. *)
Lemma publish_body_recoverable_counterexample :
  (publish (Fixtures.rejecting_client Fixtures.system_exit_200)
     (PyStr (py "projects/proj1/topics/logs")) Fixtures.hello_json []
     = (Raises Fixtures.system_exit_200, [])
   /\ py_str Fixtures.system_exit_200 = Returns (py "200")
   /\ contains (py "200") (py "200") = true
   /\ fst (publish_body (Fixtures.rejecting_client Fixtures.system_exit_200)
             Fixtures.hello Fixtures.proj1 Fixtures.logs Fixtures.start)
      = Raises Fixtures.system_exit_200
   /\ exn_class Fixtures.system_exit_200 <> exn_class RecoverableError)
  /\ (publish (Fixtures.rejecting_client Fixtures.deadline_exceeded)
        (PyStr (py "projects/proj1/topics/logs")) Fixtures.hello_json []
        = (Raises Fixtures.deadline_exceeded, [])
      /\ exists raised,
           fst (publish_body (Fixtures.rejecting_client Fixtures.deadline_exceeded)
                  Fixtures.hello Fixtures.proj1 Fixtures.logs Fixtures.start)
           = Raises raised
           /\ exn_class raised = exn_class RecoverableError
           /\ exn_context raised = Some Fixtures.deadline_exceeded
           /\ py_str Fixtures.deadline_exceeded
              = Returns (py "Deadline exceeded (200)")).
Proof.
  split.
  - split; [reflexivity|]. split; [reflexivity|]. split; [reflexivity|].
    split; [reflexivity|]. vm_compute. discriminate.
  - split; [reflexivity|].
    exists (during Fixtures.deadline_exceeded RecoverableError).
    repeat split.
Qed.

(** C2.  An exception raised by [topic_path], or by [publish], whose
    [str] returns a text with no ["200"] in it leaves [publish_body] as
    it is: the very exception, whatever its class. *)
Theorem publish_body_permanent {S} (client : client S)
  (body project_id topic : pyvalue) (w : world S) (e : exn) (err_str : pystr) :
  (exists s1, topic_path client project_id topic (service w) = (Raises e, s1))
  \/ (exists path s1 text data s2,
        topic_path client project_id topic (service w) = (Returns path, s1)
        /\ Json.dumps body = Returns text
        /\ Codec.utf8_encode text = Returns data
        /\ publish client path data s1 = (Raises e, s2)) ->
  py_str e = Returns err_str ->
  contains (py "200") err_str = false ->
  fst (publish_body client body project_id topic w) = Raises e.
Proof.
  intros [[s1 Hpath]|(path & s1 & text & data & s2 & Hpath & Hdumps & Hencode & Hpublish)]
    Hstr H200; rewrite publish_body_run, Hpath.
  - cbn [fst]. now rewrite (surfaced_permanent e err_str).
  - rewrite Hdumps, Hencode, Hpublish. cbn [fst].
    now rewrite (surfaced_permanent e err_str).
Qed.

Lemma publish_body_permanent_witness :
  fst (publish_body (Fixtures.rejecting_client Fixtures.forbidden)
         Fixtures.hello Fixtures.proj1 Fixtures.logs Fixtures.start)
    = Raises Fixtures.forbidden
  /\ fst (publish_body (Fixtures.unresolving_client Fixtures.keyboard_interrupt)
         Fixtures.hello Fixtures.proj1 Fixtures.logs Fixtures.start)
    = Raises Fixtures.keyboard_interrupt.
Proof.
  split.
  - apply (publish_body_permanent (Fixtures.rejecting_client Fixtures.forbidden)
             Fixtures.hello Fixtures.proj1 Fixtures.logs Fixtures.start
             Fixtures.forbidden (py "403 Forbidden")); [right|reflexivity|reflexivity].
    exists (PyStr (py "projects/proj1/topics/logs")), [], Fixtures.hello_json,
      Fixtures.hello_json, [].
    repeat split.
  - apply (publish_body_permanent (Fixtures.unresolving_client Fixtures.keyboard_interrupt)
             Fixtures.hello Fixtures.proj1 Fixtures.logs Fixtures.start
             Fixtures.keyboard_interrupt []); [left|reflexivity|reflexivity].
    exists []. reflexivity.
Defined.

(** C8, as amended.  The test on ["200"] is made on what [topic_path]
    raises as well: an instance of [Exception] whose [str] returns a
    text with ["200"] in it becomes [RecoverableError()], raised while
    that exception is handled, and [publish] is not called. *)
Theorem publish_body_path_recoverable {S} (client : client S)
  (body project_id topic : pyvalue) (w : world S) (s1 : S)
  (e : exn) (err_str : pystr) :
  topic_path client project_id topic (service w) = (Raises e, s1) ->
  exn_is_Exception e = true ->
  py_str e = Returns err_str ->
  contains (py "200") err_str = true ->
  publish_body client body project_id topic w
    = (Raises (during e RecoverableError), after_path w project_id topic s1)
  /\ during e RecoverableError <> e
  /\ exn_class (during e RecoverableError) = exn_class RecoverableError.
Proof.
  intros Hpath Hexc Hstr H200.
  rewrite publish_body_run, Hpath, (surfaced_recoverable e err_str Hexc Hstr H200).
  split; [reflexivity|].
  split; [exact (RecoverableError_fresh e err_str Hstr H200)|reflexivity].
Qed.

Lemma publish_body_path_recoverable_witness :
  publish_body (Fixtures.unresolving_client Fixtures.deadline_exceeded)
    Fixtures.hello Fixtures.proj1 Fixtures.logs Fixtures.start
    = (Raises (during Fixtures.deadline_exceeded RecoverableError),
       after_path Fixtures.start Fixtures.proj1 Fixtures.logs [])
  /\ during Fixtures.deadline_exceeded RecoverableError <> Fixtures.deadline_exceeded
  /\ exn_class (during Fixtures.deadline_exceeded RecoverableError)
     = exn_class RecoverableError.
Proof.
  apply (publish_body_path_recoverable
           (Fixtures.unresolving_client Fixtures.deadline_exceeded)
           Fixtures.hello Fixtures.proj1 Fixtures.logs Fixtures.start []
           Fixtures.deadline_exceeded (py "Deadline exceeded (200)"));
    reflexivity.
Defined.

(** C8 as it is stated fails: [topic_path] raising
    [KeyboardInterrupt('200')], which is no instance of [Exception],
    makes [publish_body] raise that same [KeyboardInterrupt]. *)
Lemma publish_body_path_recoverable_counterexample :
  topic_path (Fixtures.unresolving_client Fixtures.keyboard_interrupt_200)
    Fixtures.proj1 Fixtures.logs []
    = (Raises Fixtures.keyboard_interrupt_200, [])
  /\ py_str Fixtures.keyboard_interrupt_200 = Returns (py "200")
  /\ contains (py "200") (py "200") = true
  /\ fst (publish_body (Fixtures.unresolving_client Fixtures.keyboard_interrupt_200)
            Fixtures.hello Fixtures.proj1 Fixtures.logs Fixtures.start)
     = Raises Fixtures.keyboard_interrupt_200
  /\ exn_class Fixtures.keyboard_interrupt_200 <> exn_class RecoverableError.
Proof.
  repeat split; try reflexivity.
  vm_compute. discriminate.
Qed.

(* ------------------------------------------------------------------ *)
(** ** [publish_body]: what reaches the transport *)

(** C3.  When [publish_body] returns, [publish] was called once, with
    the path [topic_path] gave for the project and the topic and with
    the bytes of [json.dumps(body).encode()]. *)
Theorem publish_body_submits_json {S} (client : client S)
  (body project_id topic : pyvalue) (w w' : world S) (v : pyvalue) :
  publish_body client body project_id topic w = (Returns v, w') ->
  exists path s1 text data,
    topic_path client project_id topic (service w) = (Returns path, s1)
    /\ Json.dumps body = Returns text
    /\ Codec.utf8_encode text = Returns data
    /\ calls w' = calls w ++ [TopicPath project_id topic; Publish path data].
Proof.
  intros H.
  destruct (publish_body_returns_inv client body project_id topic w w' v H)
    as (path & s1 & text & data & future & s2 & Hpath & Hdumps & Hencode & _ & _ & ->).
  exists path, s1, text, data. repeat split; assumption.
Qed.

(** The example of the spec: the payload [{"msg": "hello"}], the
    project [proj1] and the topic [logs]. *)
Lemma publish_body_submits_json_witness :
  exists w',
    publish_body Fixtures.accepting_client Fixtures.hello Fixtures.proj1 Fixtures.logs
      Fixtures.start = (Returns PyNone, w')
    /\ calls w' = [TopicPath Fixtures.proj1 Fixtures.logs;
                   Publish (PyStr (py "projects/proj1/topics/logs")) Fixtures.hello_json]
    /\ service w' = [(PyStr (py "projects/proj1/topics/logs"), Fixtures.hello_json)].
Proof.
  eexists. split; [reflexivity|].
  split; [|reflexivity].
  destruct (publish_body_submits_json Fixtures.accepting_client Fixtures.hello
              Fixtures.proj1 Fixtures.logs Fixtures.start _ PyNone eq_refl)
    as (path & s1 & text & data & Hpath & Hdumps & Hencode & Hcalls).
  rewrite Hcalls.
  injection Hpath as <- <-.
  injection Hdumps as <-.
  injection Hencode as <-.
  reflexivity.
Defined.

(** C6.  One call of [publish_body] calls [publish] at most once: the
    calls it adds to the log are [topic_path], then possibly one
    [publish], whether it returns or raises.  A failure of that one
    [publish] is not retried but handed to the caller: [publish_body]
    raises, with the same log, the exception itself when it is permanent
    (no instance of [Exception], or a text without ["200"]) and
    [RecoverableError()] when it is recoverable. *)
Theorem publish_body_publishes_once {S} (client : client S)
  (body project_id topic : pyvalue) (w : world S) :
  (exists added,
     calls (snd (publish_body client body project_id topic w)) = calls w ++ added
     /\ (publish_count added <= 1)%nat
     /\ (added = [TopicPath project_id topic]
         \/ exists path data, added = [TopicPath project_id topic; Publish path data]))
  /\ (forall path s1 text data e s2,
        topic_path client project_id topic (service w) = (Returns path, s1) ->
        Json.dumps body = Returns text ->
        Codec.utf8_encode text = Returns data ->
        publish client path data s1 = (Raises e, s2) ->
        calls (snd (publish_body client body project_id topic w))
          = calls w ++ [TopicPath project_id topic; Publish path data]
        /\ (exn_is_Exception e = false ->
            fst (publish_body client body project_id topic w) = Raises e)
        /\ (forall err_str,
              exn_is_Exception e = true ->
              py_str e = Returns err_str ->
              fst (publish_body client body project_id topic w)
                = Raises (if contains (py "200") err_str
                          then during e RecoverableError else e))).
Proof.
  split.
  - rewrite publish_body_run.
    destruct (topic_path client project_id topic (service w)) as [[path|e] s1].
    + destruct (Json.dumps body) as [text|e].
      * destruct (Codec.utf8_encode text) as [data|e].
        -- exists [TopicPath project_id topic; Publish path data].
           destruct (publish client path data s1) as [[future|e] s2];
             (split; [reflexivity|split; [cbn; lia|right; now exists path, data]]).
        -- exists [TopicPath project_id topic].
           split; [reflexivity|split; [cbn; lia|now left]].
      * exists [TopicPath project_id topic].
        split; [reflexivity|split; [cbn; lia|now left]].
    + exists [TopicPath project_id topic].
      split; [reflexivity|split; [cbn; lia|now left]].
  - intros path s1 text data e s2 Hpath Hdumps Hencode Hpublish.
    rewrite publish_body_run, Hpath, Hdumps, Hencode, Hpublish. cbn [fst snd].
    split; [reflexivity|]. unfold surfaced. split.
    + now intros ->.
    + intros err_str -> ->.
      destruct (contains (py "200") err_str); reflexivity.
Qed.

(** C7.  A call of [publish_body] that succeeds returns [None]: the
    future [publish] handed back is dropped, nothing is called on it,
    and the world differs only by the two calls and what they did to the
    service. *)
Theorem publish_body_returns_None {S} (client : client S)
  (body project_id topic : pyvalue) (w w' : world S) (v : pyvalue) :
  publish_body client body project_id topic w = (Returns v, w') ->
  v = PyNone
  /\ exists path s1 data future,
       topic_path client project_id topic (service w) = (Returns path, s1)
       /\ publish client path data s1 = (Returns future, service w')
       /\ calls w' = calls w ++ [TopicPath project_id topic; Publish path data]
       /\ stderr w' = stderr w.
Proof.
  intros H.
  destruct (publish_body_returns_inv client body project_id topic w w' v H)
    as (path & s1 & text & data & future & s2 & Hpath & _ & _ & Hpublish & -> & ->).
  split; [reflexivity|].
  exists path, s1, data, future. repeat split; assumption.
Qed.

Lemma publish_body_returns_None_witness :
  fst (publish_body Fixtures.accepting_client Fixtures.hello Fixtures.proj1 Fixtures.logs
         Fixtures.start) = Returns PyNone.
Proof.
  destruct (publish_body Fixtures.accepting_client Fixtures.hello Fixtures.proj1
              Fixtures.logs Fixtures.start) as [[v|e] w'] eqn:H.
  - destruct (publish_body_returns_None Fixtures.accepting_client Fixtures.hello
                Fixtures.proj1 Fixtures.logs Fixtures.start w' v H) as [-> _].
    reflexivity.
  - vm_compute in H. discriminate H.
Defined.

(** C9.  With a payload [json.dumps] refuses, [publish_body] raises and
    [publish] is not called; once the path is resolved, what it raises
    is the error of [json.dumps] itself when its text has no ["200"],
    and [RecoverableError()], raised while that error is handled, when
    it has. *)
Theorem publish_body_unserializable {S} (client : client S)
  (body project_id topic : pyvalue) (w : world S) (e : exn) :
  Json.dumps body = Raises e ->
  (exists e' s1,
     publish_body client body project_id topic w
       = (Raises e', after_path w project_id topic s1))
  /\ forall path s1,
       topic_path client project_id topic (service w) = (Returns path, s1) ->
       py_str e = Returns (exn_str e)
       /\ fst (publish_body client body project_id topic w)
          = Raises (if contains (py "200") (exn_str e)
                    then during e RecoverableError else e).
Proof.
  intros Hdumps. destruct (dumps_raises body e Hdumps) as [Hexc Hstr].
  rewrite publish_body_run, Hdumps.
  destruct (topic_path client project_id topic (service w)) as [[path|e1] s1].
  - split.
    + now exists (surfaced e), s1.
    + intros path' s1' _. split; [exact Hstr|].
      cbn [fst]. unfold surfaced. rewrite Hexc, Hstr.
      destruct (contains (py "200") (exn_str e)); reflexivity.
  - split.
    + now exists (surfaced e1), s1.
    + intros path' s1' H. discriminate H.
Qed.

Lemma publish_body_unserializable_witness :
  fst (publish_body Fixtures.accepting_client Fixtures.unserializable_200
         Fixtures.proj1 Fixtures.logs Fixtures.start)
    = Raises (during (Json.not_serializable (PyObject "Http200")) RecoverableError)
  /\ fst (publish_body Fixtures.accepting_client Fixtures.unserializable
         Fixtures.proj1 Fixtures.logs Fixtures.start)
     = Raises (Json.not_serializable (PyObject "datetime"))
  /\ calls (snd (publish_body Fixtures.accepting_client Fixtures.unserializable_200
         Fixtures.proj1 Fixtures.logs Fixtures.start))
     = [TopicPath Fixtures.proj1 Fixtures.logs].
Proof.
  split; [|split].
  - exact (proj2 (proj2 (publish_body_unserializable Fixtures.accepting_client
             Fixtures.unserializable_200 Fixtures.proj1 Fixtures.logs Fixtures.start
             (Json.not_serializable (PyObject "Http200")) eq_refl)
             (PyStr (py "projects/proj1/topics/logs")) [] eq_refl)).
  - exact (proj2 (proj2 (publish_body_unserializable Fixtures.accepting_client
             Fixtures.unserializable Fixtures.proj1 Fixtures.logs Fixtures.start
             (Json.not_serializable (PyObject "datetime")) eq_refl)
             (PyStr (py "projects/proj1/topics/logs")) [] eq_refl)).
  - reflexivity.
Defined.

(* ------------------------------------------------------------------ *)
(** ** [check_topic] *)

(** C4, as amended.  [check_topic] returns [True] when [topic_path]
    returns and [False] when it raises an instance of [Exception], whose
    traceback goes to [sys.stderr]; in both cases no exception leaves
    [check_topic]. *)
Theorem check_topic_result {S} (client : client S) (project_id topic : pyvalue)
  (w : world S) (r : outcome pyvalue) (s1 : S) :
  topic_path client project_id topic (service w) = (r, s1) ->
  (forall e, r = Raises e -> exn_is_Exception e = true) ->
  check_topic client project_id topic w
    = (Returns (PyBool (match r with Returns _ => true | Raises _ => false end)),
       World s1 (calls w ++ [TopicPath project_id topic])
             (match r with Returns _ => stderr w | Raises e => stderr w ++ [e] end)).
Proof.
  intros Hpath Hexc. rewrite check_topic_run, Hpath.
  destruct r as [path|e]; [reflexivity|].
  now rewrite (Hexc e eq_refl).
Qed.

Lemma check_topic_result_witness :
  check_topic Fixtures.accepting_client Fixtures.proj1 Fixtures.logs Fixtures.start
    = (Returns (PyBool true),
       World [] [TopicPath Fixtures.proj1 Fixtures.logs] [])
  /\ check_topic (Fixtures.unresolving_client Fixtures.forbidden)
       Fixtures.proj1 Fixtures.logs Fixtures.start
    = (Returns (PyBool false),
       World [] [TopicPath Fixtures.proj1 Fixtures.logs] [Fixtures.forbidden]).
Proof.
  split.
  - apply (check_topic_result Fixtures.accepting_client Fixtures.proj1 Fixtures.logs
             Fixtures.start (Returns (PyStr (py "projects/proj1/topics/logs"))) []).
    + reflexivity.
    + intros e H. discriminate H.
  - apply (check_topic_result (Fixtures.unresolving_client Fixtures.forbidden)
             Fixtures.proj1 Fixtures.logs Fixtures.start (Raises Fixtures.forbidden) []).
    + reflexivity.
    + intros e H. injection H as <-. reflexivity.
Defined.

(** C4 as it is stated fails: when [topic_path] raises
    [KeyboardInterrupt], which is no instance of [Exception],
    [check_topic] does not return [False]; the exception leaves it and
    nothing is printed. *)
Lemma check_topic_result_counterexample :
  topic_path (Fixtures.unresolving_client Fixtures.keyboard_interrupt)
    Fixtures.proj1 Fixtures.logs []
    = (Raises Fixtures.keyboard_interrupt, [])
  /\ check_topic (Fixtures.unresolving_client Fixtures.keyboard_interrupt)
       Fixtures.proj1 Fixtures.logs Fixtures.start
     = (Raises Fixtures.keyboard_interrupt,
        World [] [TopicPath Fixtures.proj1 Fixtures.logs] [])
  /\ fst (check_topic (Fixtures.unresolving_client Fixtures.keyboard_interrupt)
            Fixtures.proj1 Fixtures.logs Fixtures.start)
     <> Returns (PyBool false).
Proof.
  repeat split. vm_compute. discriminate.
Qed.

(* ------------------------------------------------------------------ *)
(** ** [get_pubsub_client] *)

Lemma get_pubsub_client_run {S} (g : module_globals S) (http credentials : pyvalue)
  (w : world S) :
  get_pubsub_client g http credentials w = (Returns (published_client g), w).
Proof. reflexivity. Qed.

Lemma get_pubsub_client_each_run {S} (g : module_globals S)
  (args : list (pyvalue * pyvalue)) (w : world S) :
  get_pubsub_client_each g args w
    = (Returns (repeat (published_client g) (List.length args)), w).
Proof.
  induction args as [|[http credentials] rest IH]; [reflexivity|].
  cbn [get_pubsub_client_each List.length repeat].
  unfold bind at 1. rewrite get_pubsub_client_run.
  unfold bind. rewrite IH. reflexivity.
Qed.

(** C5.  Once the module is imported, which builds the publisher client
    by one call of the library's constructor, every call of
    [get_pubsub_client] returns that one client, whatever [http] and
    [credentials] are; the call changes nothing in the world and never
    raises. *)
Theorem get_pubsub_client_shared {S}
  (PublisherClient : S -> outcome (client S) * S)
  (w0 w1 : world S) (g : module_globals S) :
  import_module PublisherClient w0 = (Returns g, w1) ->
  PublisherClient (service w0) = (Returns (published_client g), service w1)
  /\ calls w1 = calls w0 ++ [NewPublisherClient]
  /\ (forall (w : world S) (http credentials : pyvalue),
        get_pubsub_client g http credentials w = (Returns (published_client g), w))
  /\ (forall (w : world S) (args : list (pyvalue * pyvalue)),
        get_pubsub_client_each g args w
          = (Returns (repeat (published_client g) (List.length args)), w)).
Proof.
  unfold import_module, bind, call_PublisherClient, logged, ret.
  destruct (PublisherClient (service w0)) as [[c|e] s1]; [|discriminate].
  intros H. injection H as <- <-. cbn.
  split; [reflexivity|split; [reflexivity|split]].
  - intros w http credentials. apply get_pubsub_client_run.
  - intros w args. apply get_pubsub_client_each_run.
Qed.

Lemma get_pubsub_client_shared_witness :
  get_pubsub_client
    (Globals [py "https://www.googleapis.com/auth/pubsub"] Fixtures.accepting_client)
    PyNone (PyObject "Credentials")
    (World [] [NewPublisherClient] [])
  = (Returns Fixtures.accepting_client, World [] [NewPublisherClient] []).
Proof.
  exact (proj1 (proj2 (proj2 (get_pubsub_client_shared Fixtures.new_accepting_client
                 Fixtures.start _ _ eq_refl)))
           (World [] [NewPublisherClient] []) PyNone (PyObject "Credentials")).
Defined.

(* ------------------------------------------------------------------ *)
(** ** UTF-8: decoding undoes encoding *)

Lemma Some_eq {A} (x y : A) : Some x = Some y -> x = y.
Proof. congruence. Qed.

(** The decoder on a well-formed sequence of one, two, three and four
    bytes. *)
Lemma utf8_decode_1 (object : pybytes) (pos b0 : Z) (r : pybytes) :
  b0 < 128 ->
  Codec.utf8_decode_from object pos (b0 :: r)
  = do rest <~ Codec.utf8_decode_from object (pos + 1) r ; Returns (b0 :: rest).
Proof.
  intros H. cbn [Codec.utf8_decode_from]. settle_tests. reflexivity.
Qed.

Lemma utf8_decode_2 (object : pybytes) (pos b0 b1 : Z) (r : pybytes) :
  194 <= b0 < 224 ->
  Codec.is_continuation b1 = true ->
  Codec.utf8_decode_from object pos (b0 :: b1 :: r)
  = do rest <~ Codec.utf8_decode_from object (pos + 2) r ;
    Returns ((b0 - 192) * 64 + (b1 - 128) :: rest).
Proof.
  intros H H1. cbn [Codec.utf8_decode_from]. settle_tests.
  rewrite H1. reflexivity.
Qed.

Lemma utf8_decode_3 (object : pybytes) (pos b0 b1 b2 : Z) (r : pybytes) :
  224 <= b0 < 240 ->
  Codec.valid_second b0 b1 = true ->
  Codec.is_continuation b2 = true ->
  Codec.utf8_decode_from object pos (b0 :: b1 :: b2 :: r)
  = do rest <~ Codec.utf8_decode_from object (pos + 3) r ;
    Returns ((b0 - 224) * 4096 + (b1 - 128) * 64 + (b2 - 128) :: rest).
Proof.
  intros H H1 H2. cbn [Codec.utf8_decode_from]. settle_tests.
  rewrite H1, H2. reflexivity.
Qed.

Lemma utf8_decode_4 (object : pybytes) (pos b0 b1 b2 b3 : Z) (r : pybytes) :
  240 <= b0 < 245 ->
  Codec.valid_second b0 b1 = true ->
  Codec.is_continuation b2 = true ->
  Codec.is_continuation b3 = true ->
  Codec.utf8_decode_from object pos (b0 :: b1 :: b2 :: b3 :: r)
  = do rest <~ Codec.utf8_decode_from object (pos + 4) r ;
    Returns ((b0 - 240) * 262144 + (b1 - 128) * 4096
             + (b2 - 128) * 64 + (b3 - 128) :: rest).
Proof.
  intros H H1 H2 H3. cbn [Codec.utf8_decode_from]. settle_tests.
  rewrite H1, H2, H3. reflexivity.
Qed.

Lemma is_continuation_low6 (x : Z) : Codec.is_continuation (128 + x mod 64) = true.
Proof. unfold Codec.is_continuation. settle_tests. reflexivity. Qed.

(** The bytes of one code point decode to that code point, and the
    decoder goes on with what follows them. *)
Lemma utf8_decode_encode_char (object : pybytes) (c : Z) (cb rest : pybytes) (pos : Z) :
  is_code_point c ->
  Codec.utf8_encode_char c = Some cb ->
  exists pos',
    Codec.utf8_decode_from object pos (cb ++ rest)
    = do r <~ Codec.utf8_decode_from object pos' rest ; Returns (c :: r).
Proof.
  unfold is_code_point, Codec.utf8_encode_char. intros Hc.
  destruct (Z.ltb_spec c 128) as [H1|H1]; cbv iota.
  { intros H. apply Some_eq in H. subst cb. exists (pos + 1). cbn [app].
    now rewrite utf8_decode_1. }
  destruct (Z.ltb_spec c 2048) as [H2|H2]; cbv iota.
  { intros H. apply Some_eq in H. subst cb. exists (pos + 2). cbn [app].
    rewrite utf8_decode_2 by (div_lia || apply is_continuation_low6).
    replace ((192 + c / 64 - 192) * 64 + (128 + c mod 64 - 128)) with c by div_lia.
    reflexivity. }
  destruct (Z.ltb_spec c 65536) as [H3|H3]; cbv iota.
  { destruct (Z.leb_spec 55296 c) as [H4|H4];
      [destruct (Z.leb_spec c 57343) as [H5|H5]|]; cbn [andb]; cbv iota;
      try discriminate;
      intros H; apply Some_eq in H; subst cb; exists (pos + 3); cbn [app];
      (rewrite utf8_decode_3;
       [|div_lia
        |unfold Codec.valid_second; rewrite is_continuation_low6;
         split_tests; reflexivity
        |apply is_continuation_low6]);
      replace ((224 + c / 4096 - 224) * 4096 + (128 + (c / 64) mod 64 - 128) * 64
               + (128 + c mod 64 - 128)) with c by div_lia;
      reflexivity. }
  intros H. apply Some_eq in H. subst cb. exists (pos + 4). cbn [app].
  rewrite utf8_decode_4;
    [|div_lia
     |unfold Codec.valid_second; rewrite is_continuation_low6;
      split_tests; reflexivity
     |apply is_continuation_low6
     |apply is_continuation_low6].
  replace ((240 + c / 262144 - 240) * 262144 + (128 + (c / 4096) mod 64 - 128) * 4096
           + (128 + (c / 64) mod 64 - 128) * 64 + (128 + c mod 64 - 128))
    with c by div_lia.
  reflexivity.
Qed.

Lemma utf8_encode_char_octets (c : Z) (cb : pybytes) :
  is_code_point c -> Codec.utf8_encode_char c = Some cb -> is_bytes cb.
Proof.
  unfold is_code_point, Codec.utf8_encode_char, is_bytes, is_octet. intros Hc.
  destruct (Z.ltb_spec c 128); cbv iota;
    [|destruct (Z.ltb_spec c 2048); cbv iota;
      [|destruct (Z.ltb_spec c 65536); cbv iota;
        [destruct ((55296 <=? c) && (c <=? 57343)); [discriminate|]|]]];
    intros Hcb; apply Some_eq in Hcb; subst cb;
    repeat (constructor; [div_lia|]); constructor.
Qed.

Lemma utf8_encode_char_total (c : Z) :
  ~ is_surrogate c -> exists cb, Codec.utf8_encode_char c = Some cb.
Proof.
  unfold is_surrogate, Codec.utf8_encode_char. intros Hc.
  destruct (c <? 128); [eauto|].
  destruct (c <? 2048); [eauto|].
  destruct (c <? 65536); [|eauto].
  destruct (Z.leb_spec 55296 c); [|cbn [andb]; eauto].
  destruct (Z.leb_spec c 57343); [lia|cbn [andb]; eauto].
Qed.

(** A string without surrogates has a UTF-8 form. *)
Lemma utf8_encode_total (object s : pystr) :
  Forall (fun c => ~ is_surrogate c) s ->
  forall pos, exists bs, Codec.utf8_encode_from object pos s = Returns bs.
Proof.
  induction 1 as [|c s Hc _ IH]; intros pos; cbn [Codec.utf8_encode_from].
  - now exists [].
  - destruct (utf8_encode_char_total c Hc) as [cb ->].
    destruct (IH (pos + 1)) as [bs ->]. cbn [obind]. now exists (cb ++ bs).
Qed.

Lemma Returns_eq {A} (x y : A) : Returns x = Returns y -> x = y.
Proof. congruence. Qed.

Lemma utf8_encode_octets (object s : pystr) :
  is_str s ->
  forall pos bs, Codec.utf8_encode_from object pos s = Returns bs -> is_bytes bs.
Proof.
  induction 1 as [|c s Hc _ IH]; intros pos bs; cbn [Codec.utf8_encode_from].
  - intros H. apply Returns_eq in H. subst bs. constructor.
  - destruct (Codec.utf8_encode_char c) as [cb|] eqn:Hcb; [|discriminate].
    destruct (Codec.utf8_encode_from object (pos + 1) s) as [rest|e] eqn:Hrest;
      cbn [obind]; [|discriminate].
    intros H. apply Returns_eq in H. subst bs. apply Forall_app. split.
    + exact (utf8_encode_char_octets c cb Hc Hcb).
    + exact (IH (pos + 1) rest Hrest).
Qed.

(** [decode('utf-8')] gives back the string that was encoded. *)
Lemma utf8_decode_encode (object : pystr) (s : pystr) :
  is_str s ->
  forall pos bs, Codec.utf8_encode_from object pos s = Returns bs ->
  forall object' pos', Codec.utf8_decode_from object' pos' bs = Returns s.
Proof.
  induction 1 as [|c s Hc _ IH]; intros pos bs; cbn [Codec.utf8_encode_from].
  - intros H. apply Returns_eq in H. subst bs. reflexivity.
  - destruct (Codec.utf8_encode_char c) as [cb|] eqn:Hcb; [|discriminate].
    destruct (Codec.utf8_encode_from object (pos + 1) s) as [rest|e] eqn:Hrest;
      cbn [obind]; [|discriminate].
    intros H. apply Returns_eq in H. subst bs. intros object' pos'.
    destruct (utf8_decode_encode_char object' c cb rest pos' Hc Hcb) as [pos'' ->].
    rewrite (IH (pos + 1) rest Hrest object' pos''). reflexivity.
Qed.

(* ------------------------------------------------------------------ *)
(** ** ASCII: the two codecs are the identity below 128 *)

Lemma ascii_decode_id (object bs : pybytes) :
  Forall (fun b => b < 128) bs ->
  forall pos, Codec.ascii_decode_from object pos bs = Returns bs.
Proof.
  induction 1 as [|b bs Hb _ IH]; intros pos; cbn [Codec.ascii_decode_from].
  - reflexivity.
  - settle_tests. now rewrite IH.
Qed.

Lemma ascii_encode_id (object s : pystr) :
  Forall (fun c => c < 128) s ->
  forall pos, Codec.ascii_encode_from object pos s = Returns s.
Proof.
  induction 1 as [|c s Hc _ IH]; intros pos; cbn [Codec.ascii_encode_from].
  - reflexivity.
  - settle_tests. now rewrite IH.
Qed.

(* ------------------------------------------------------------------ *)
(** ** Base64: decoding undoes encoding *)

Lemma digit_cases (n : Z) :
  0 <= n < 64 -> exists k, (k < 64)%nat /\ n = Z.of_nat k.
Proof. intros H. exists (Z.to_nat n). lia. Qed.

(** The 64 digits are ASCII, none is the padding, and each reads back
    as its value. *)
Lemma written_digit_spec (n : Z) :
  0 <= n < 64 ->
  written_digit n < 128
  /\ (read_back (written_digit n) =? Base64.BASE64_PAD) = false
  /\ Base64.a2b_digit (read_back (written_digit n)) = Some n.
Proof.
  intros H. destruct (digit_cases n H) as (k & Hk & ->).
  do 64 (destruct k as [|k]; [vm_compute; repeat split; reflexivity|]).
  lia.
Qed.

Lemma a2b_loop_digit (st : Base64.a2b_state) (n : Z) (rest : pybytes) :
  0 <= n < 64 ->
  Base64.a2b_loop st (read_back (written_digit n) :: rest)
  = Base64.a2b_loop (Base64.a2b_push st n) rest.
Proof.
  intros H. destruct (written_digit_spec n H) as (_ & Hpad & Hdigit).
  cbn [Base64.a2b_loop]. now rewrite Hpad, Hdigit.
Qed.

Lemma a2b_push_0 (l p : Z) (out : pybytes) (v : Z) :
  Base64.a2b_push (Base64.A2B 0 l p out) v = Base64.A2B 1 v 0 out.
Proof. reflexivity. Qed.

Lemma a2b_push_1 (l p : Z) (out : pybytes) (v : Z) :
  Base64.a2b_push (Base64.A2B 1 l p out) v
  = Base64.A2B 2 (v mod 16) 0 (out ++ [(l * 4 + v / 16) mod 256]).
Proof. reflexivity. Qed.

Lemma a2b_push_2 (l p : Z) (out : pybytes) (v : Z) :
  Base64.a2b_push (Base64.A2B 2 l p out) v
  = Base64.A2B 3 (v mod 4) 0 (out ++ [(l * 16 + v / 4) mod 256]).
Proof. reflexivity. Qed.

Lemma a2b_push_3 (l p : Z) (out : pybytes) (v : Z) :
  Base64.a2b_push (Base64.A2B 3 l p out) v
  = Base64.A2B 0 0 0 (out ++ [(l * 64 + v) mod 256]).
Proof. reflexivity. Qed.

(** Two signs of padding after two digits, one after three, end the
    parse with the octets read so far. *)
Lemma a2b_loop_pad_2 (l : Z) (out rest : pybytes) :
  Base64.a2b_loop (Base64.A2B 2 l 0 out)
    (read_back (Base64.urlsafe_encode_translation Base64.BASE64_PAD)
     :: read_back (Base64.urlsafe_encode_translation Base64.BASE64_PAD) :: rest)
  = Returns out.
Proof. reflexivity. Qed.

Lemma a2b_loop_pad_3 (l : Z) (out rest : pybytes) :
  Base64.a2b_loop (Base64.A2B 3 l 0 out)
    (read_back (Base64.urlsafe_encode_translation Base64.BASE64_PAD) :: rest)
  = Returns out.
Proof. reflexivity. Qed.

(** Induction on a list, three elements at a time. *)
Lemma list_ind3 {A} (P : list A -> Prop) :
  P [] -> (forall a, P [a]) -> (forall a b, P [a; b]) ->
  (forall a b c l, P l -> P (a :: b :: c :: l)) ->
  forall l, P l.
Proof.
  intros H0 H1 H2 H3. fix IH 1.
  intros [|a [|b [|c l]]]; [exact H0|apply H1|apply H2|apply H3, IH].
Qed.

(** The decoding loop, run on what the encoder wrote, appends the
    encoded octets to its output. *)
Lemma a2b_loop_b2a (bs : pybytes) :
  is_bytes bs ->
  forall out,
    Base64.a2b_loop (Base64.A2B 0 0 0 out)
      (map read_back (map Base64.urlsafe_encode_translation (Base64.b2a_base64 bs)))
    = Returns (out ++ bs).
Proof.
  unfold is_bytes, is_octet.
  induction bs as [|a|a b|a b c bs IH] using list_ind3; intros Hbs out.
  - cbn. now rewrite app_nil_r.
  - apply Forall_cons_iff in Hbs as [Ha _].
    cbn [Base64.b2a_base64 map]. fold (written_digit (a / 4)).
    fold (written_digit (a mod 4 * 16)).
    rewrite a2b_loop_digit, a2b_push_0 by div_lia.
    rewrite a2b_loop_digit, a2b_push_1 by div_lia.
    rewrite a2b_loop_pad_2.
    replace ((a / 4 * 4 + a mod 4 * 16 / 16) mod 256) with a by div_lia.
    reflexivity.
  - apply Forall_cons_iff in Hbs as [Ha Hbs].
    apply Forall_cons_iff in Hbs as [Hb _].
    cbn [Base64.b2a_base64 map]. fold (written_digit (a / 4)).
    fold (written_digit (a mod 4 * 16 + b / 16)).
    fold (written_digit (b mod 16 * 4)).
    rewrite a2b_loop_digit, a2b_push_0 by div_lia.
    rewrite a2b_loop_digit, a2b_push_1 by div_lia.
    rewrite a2b_loop_digit, a2b_push_2 by div_lia.
    rewrite a2b_loop_pad_3.
    replace ((a / 4 * 4 + (a mod 4 * 16 + b / 16) / 16) mod 256) with a by div_lia.
    replace (((a mod 4 * 16 + b / 16) mod 16 * 16 + b mod 16 * 4 / 4) mod 256)
      with b by div_lia.
    rewrite <- app_assoc. reflexivity.
  - apply Forall_cons_iff in Hbs as [Ha Hbs].
    apply Forall_cons_iff in Hbs as [Hb Hbs].
    apply Forall_cons_iff in Hbs as [Hc Hbs].
    cbn [Base64.b2a_base64 map app]. fold (written_digit (a / 4)).
    fold (written_digit (a mod 4 * 16 + b / 16)).
    fold (written_digit (b mod 16 * 4 + c / 64)).
    fold (written_digit (c mod 64)).
    rewrite a2b_loop_digit, a2b_push_0 by div_lia.
    rewrite a2b_loop_digit, a2b_push_1 by div_lia.
    rewrite a2b_loop_digit, a2b_push_2 by div_lia.
    rewrite a2b_loop_digit, a2b_push_3 by div_lia.
    rewrite (IH Hbs).
    replace ((a / 4 * 4 + (a mod 4 * 16 + b / 16) / 16) mod 256) with a by div_lia.
    replace (((a mod 4 * 16 + b / 16) mod 16 * 16 + (b mod 16 * 4 + c / 64) / 4) mod 256)
      with b by div_lia.
    replace (((b mod 16 * 4 + c / 64) mod 4 * 64 + c mod 64) mod 256) with c by div_lia.
    rewrite <- !app_assoc. reflexivity.
Qed.

(** What [urlsafe_b64encode] writes is ASCII. *)
Lemma urlsafe_b64encode_ascii (bs : pybytes) :
  is_bytes bs -> Forall (fun c => c < 128) (Base64.urlsafe_b64encode bs).
Proof.
  unfold is_bytes, is_octet, Base64.urlsafe_b64encode, Base64.b64encode.
  induction bs as [|a|a b|a b c bs IH] using list_ind3; intros Hbs.
  - constructor.
  - apply Forall_cons_iff in Hbs as [Ha _].
    cbn [Base64.b2a_base64 map].
    repeat (constructor;
            [first [apply written_digit_spec; div_lia | vm_compute; reflexivity]|]).
    constructor.
  - apply Forall_cons_iff in Hbs as [Ha Hbs].
    apply Forall_cons_iff in Hbs as [Hb _].
    cbn [Base64.b2a_base64 map].
    repeat (constructor;
            [first [apply written_digit_spec; div_lia | vm_compute; reflexivity]|]).
    constructor.
  - apply Forall_cons_iff in Hbs as [Ha Hbs].
    apply Forall_cons_iff in Hbs as [Hb Hbs].
    apply Forall_cons_iff in Hbs as [Hc Hbs].
    cbn [Base64.b2a_base64 map app].
    do 4 (constructor; [apply written_digit_spec; div_lia|]).
    exact (IH Hbs).
Qed.

(** [urlsafe_b64decode] gives back the bytes [urlsafe_b64encode] was
    given, from the [bytes] it wrote and from the same text as a [str]. *)
Lemma urlsafe_b64decode_encode (bs : pybytes) :
  is_bytes bs ->
  Base64.urlsafe_b64decode_bytes (Base64.urlsafe_b64encode bs) = Returns bs
  /\ Base64.urlsafe_b64decode_str (Base64.urlsafe_b64encode bs) = Returns bs.
Proof.
  intros Hbs.
  assert (Hbytes : Base64.urlsafe_b64decode_bytes (Base64.urlsafe_b64encode bs)
                   = Returns bs).
  { unfold Base64.urlsafe_b64decode_bytes, Base64.b64decode, Base64.a2b_base64,
      Base64.a2b_init, Base64.urlsafe_b64encode, Base64.b64encode.
    exact (a2b_loop_b2a bs Hbs []). }
  split; [exact Hbytes|].
  unfold Base64.urlsafe_b64decode_str, Codec.ascii_encode.
  rewrite (ascii_encode_id _ _ (urlsafe_b64encode_ascii bs Hbs)). exact Hbytes.
Qed.

(* ------------------------------------------------------------------ *)
(** ** [compat_urlsafe_b64encode] *)

(** On Python 3 a string without surrogates is encoded, and decoding
    the result gives the string back. *)
Lemma compat_urlsafe_b64encode_decode (version_major : Z) (v : pystr) :
  3 <= version_major ->
  is_str v ->
  Forall (fun c => ~ is_surrogate c) v ->
  exists r,
    compat_urlsafe_b64encode version_major v = Returns r
    /\ urlsafe_b64decode_utf8 r = Returns v.
Proof.
  intros Hpy3 Hstr Hsur.
  destruct (utf8_encode_total v v Hsur 0) as [bs Hbs].
  pose proof (utf8_encode_octets v v Hstr 0 bs Hbs) as Hoct.
  exists (Base64.urlsafe_b64encode bs). split.
  - unfold compat_urlsafe_b64encode. settle_tests.
    unfold Codec.utf8_encode. rewrite Hbs. cbn [obind].
    exact (ascii_decode_id _ _ (urlsafe_b64encode_ascii bs Hoct) 0).
  - unfold urlsafe_b64decode_utf8.
    rewrite (proj2 (urlsafe_b64decode_encode bs Hoct)). cbn [obind].
    exact (utf8_decode_encode v v Hstr 0 bs Hbs bs 0).
Qed.

(** On Python 2 the byte string comes back from [urlsafe_b64decode]. *)
Lemma compat_urlsafe_b64encode_decode_py2 (version_major : Z) (v : pybytes) :
  version_major < 3 ->
  is_bytes v ->
  exists r,
    compat_urlsafe_b64encode version_major v = Returns r
    /\ Base64.urlsafe_b64decode_bytes r = Returns v.
Proof.
  intros Hpy2 Hv. exists (Base64.urlsafe_b64encode v). split.
  - unfold compat_urlsafe_b64encode. settle_tests. reflexivity.
  - exact (proj1 (urlsafe_b64decode_encode v Hv)).
Qed.

(** C10, as amended.  On Python 3, for a string [v] with no surrogate
    code point, [compat_urlsafe_b64encode(v)] returns, and
    [urlsafe_b64decode] followed by [decode('utf-8')] gives [v] back; so
    two such strings with the same encoding are the same string. *)
Theorem compat_urlsafe_b64encode_roundtrip (version_major : Z) (v : pystr) :
  3 <= version_major ->
  is_str v ->
  Forall (fun c => ~ is_surrogate c) v ->
  (exists r,
     compat_urlsafe_b64encode version_major v = Returns r
     /\ urlsafe_b64decode_utf8 r = Returns v)
  /\ (forall v' : pystr,
        is_str v' ->
        Forall (fun c => ~ is_surrogate c) v' ->
        compat_urlsafe_b64encode version_major v'
          = compat_urlsafe_b64encode version_major v ->
        v' = v).
Proof.
  intros Hpy3 Hstr Hsur. split.
  - exact (compat_urlsafe_b64encode_decode version_major v Hpy3 Hstr Hsur).
  - intros v' Hstr' Hsur' Heq.
    destruct (compat_urlsafe_b64encode_decode version_major v Hpy3 Hstr Hsur)
      as (r & Hr & Hback).
    destruct (compat_urlsafe_b64encode_decode version_major v' Hpy3 Hstr' Hsur')
      as (r' & Hr' & Hback').
    rewrite Hr, Hr' in Heq. injection Heq as ->.
    rewrite Hback in Hback'. now injection Hback'.
Qed.

Lemma compat_urlsafe_b64encode_roundtrip_witness :
  exists r,
    compat_urlsafe_b64encode 3 [104; 233; 8364; 128512] = Returns r
    /\ urlsafe_b64decode_utf8 r = Returns [104; 233; 8364; 128512].
Proof.
  apply (compat_urlsafe_b64encode_roundtrip 3 [104; 233; 8364; 128512]).
  - lia.
  - repeat constructor; unfold is_code_point; lia.
  - repeat constructor; unfold is_surrogate; lia.
Defined.

(** C10 as it is stated fails: on Python 3 the one-character string
    with the lone surrogate U+D800 has no UTF-8 form;
    [compat_urlsafe_b64encode] raises [UnicodeEncodeError] and there is
    no result to decode. *)
Lemma compat_urlsafe_b64encode_roundtrip_counterexample :
  is_str [55296]
  /\ compat_urlsafe_b64encode 3 [55296]
     = Raises (Codec.UnicodeEncodeError "utf-8" [55296] 0 1 "surrogates not allowed")
  /\ ~ (exists r,
          compat_urlsafe_b64encode 3 [55296] = Returns r
          /\ urlsafe_b64decode_utf8 r = Returns [55296]).
Proof.
  split; [|split].
  - repeat constructor; unfold is_code_point; lia.
  - reflexivity.
  - intros (r & Hr & _). vm_compute in Hr. discriminate Hr.
Qed.

(** On Python 2 the byte string [\xff] is encoded as [_w==], and those
    bytes are not UTF-8: the last step of the round trip raises. *)
Lemma compat_urlsafe_b64encode_py2_not_utf8 :
  compat_urlsafe_b64encode 2 [255] = Returns (py "_w==")
  /\ urlsafe_b64decode_utf8 (py "_w==")
     = Raises (Codec.UnicodeDecodeError "utf-8" [255] 0 1 "invalid start byte").
Proof. split; reflexivity. Qed.

(* ------------------------------------------------------------------ *)
(** ** [json.dumps(body).encode()]: the bytes are printable ASCII *)

Lemma py_cons (a : ascii) (s : string) :
  py (String a s) = Z.of_N (N_of_ascii a) :: py s.
Proof. reflexivity. Qed.

Lemma printable_app (l1 l2 : pystr) :
  Forall printable l1 -> Forall printable l2 -> Forall printable (l1 ++ l2).
Proof. intros H1 H2. apply Forall_app. now split. Qed.

Lemma uint_printable (d : Decimal.uint) :
  Forall printable (py (NilEmpty.string_of_uint d)).
Proof.
  induction d; cbn [NilEmpty.string_of_uint]; try rewrite py_cons;
    constructor; try assumption; unfold printable; cbn; lia.
Qed.

Lemma decimal_printable (z : Z) : Forall printable (decimal z).
Proof.
  unfold decimal, NilZero.string_of_int, NilZero.string_of_uint.
  destruct (Z.to_int z) as [d|d].
  - destruct d; try apply uint_printable. repeat constructor; unfold printable; cbn; lia.
  - rewrite py_cons. constructor; [unfold printable; cbn; lia|].
    destruct d; try apply uint_printable. repeat constructor; unfold printable; cbn; lia.
Qed.

Lemma hex_printable (width : nat) (z : Z) : Forall printable (hex width z).
Proof.
  revert z. induction width as [|w IH]; intros z; cbn [hex].
  - constructor.
  - apply printable_app; [apply IH|].
    constructor; [|constructor].
    unfold printable, hex_digit.
    destruct (Z.ltb_spec (z mod 16) 10); div_lia.
Qed.

Lemma escape_char_printable (c : Z) : Forall printable (Json.escape_char c).
Proof.
  unfold Json.escape_char.
  repeat match goal with
         | |- Forall _ (if ?a =? ?b then _ else _) =>
             destruct (a =? b);
             [repeat constructor; unfold printable; lia|]
         end.
  destruct (Z.leb_spec 32 c); cbn [andb].
  - destruct (Z.leb_spec c 126).
    + repeat constructor; unfold printable; lia.
    + destruct (c <? 65536);
        repeat (apply printable_app; try apply hex_printable);
        repeat constructor; unfold printable; lia.
  - destruct (c <? 65536);
      repeat (apply printable_app; try apply hex_printable);
      repeat constructor; unfold printable; lia.
Qed.

Lemma escaped_printable (s : pystr) :
  Forall printable (flat_map Json.escape_char s).
Proof.
  induction s as [|c s IH]; cbn [flat_map]; [constructor|].
  apply printable_app; [apply escape_char_printable|exact IH].
Qed.

Lemma encode_basestring_ascii_printable (s : pystr) :
  Forall printable (Json.encode_basestring_ascii s).
Proof.
  unfold Json.encode_basestring_ascii. split_printable. apply escaped_printable.
Qed.

(** Whatever the encoder writes is printable ASCII. *)
Lemma encode_printable :
  forall (o : pyvalue) (text : pystr),
    Json.encode o = Returns text -> Forall printable text.
Proof.
  fix IH 1. intros o text.
  destruct o as [ |[|]|z|s|b|items|items|cls]; cbn [Json.encode];
    try discriminate;
    try (intros H; apply Returns_eq in H; subst text;
         first [apply decimal_printable
               |apply encode_basestring_ascii_printable
               |cbn; split_printable]).
  - (* a list *)
    match goal with
    | |- obind (?f true items) _ = _ -> _ => set (encode_list := f)
    end.
    assert (Hlist : forall first t, encode_list first items = Returns t ->
                                    Forall printable t).
    { clear text. induction items as [|x l IHl]; intros first t; cbn.
      - intros H. apply Returns_eq in H. subst t. constructor.
      - destruct (Json.encode x) as [sx|ex] eqn:Hx; cbn; [|discriminate].
        fold encode_list. destruct (encode_list false l) as [sl|el] eqn:Hl; cbn;
          [|discriminate].
        intros H. apply Returns_eq in H. subst t.
        destruct first; cbn; split_printable;
          first [exact (IH x sx Hx)|exact (IHl false sl Hl)]. }
    destruct (encode_list true items) as [body|eb] eqn:Hb; cbn; [|discriminate].
    intros H. apply Returns_eq in H. subst text.
    split_printable. exact (Hlist true body Hb).
  - (* a dictionary *)
    match goal with
    | |- obind (?f true items) _ = _ -> _ => set (encode_dict := f)
    end.
    assert (Hdict : forall first t, encode_dict first items = Returns t ->
                                    Forall printable t).
    { clear text. induction items as [|[k v] l IHl]; intros first t; cbn.
      - intros H. apply Returns_eq in H. subst t. constructor.
      - destruct (Json.key_text k) as [sk|ek] eqn:Hk; cbn; [|discriminate].
        destruct (Json.encode v) as [sv|ev] eqn:Hv; cbn; [|discriminate].
        fold encode_dict. destruct (encode_dict false l) as [sl|el] eqn:Hl; cbn;
          [|discriminate].
        intros H. apply Returns_eq in H. subst t.
        destruct first; cbn; split_printable;
          first [apply escaped_printable|exact (IH v sv Hv)|exact (IHl false sl Hl)]. }
    destruct (encode_dict true items) as [body|eb] eqn:Hb; cbn; [|discriminate].
    intros H. apply Returns_eq in H. subst text.
    split_printable. exact (Hdict true body Hb).
Qed.

(** The UTF-8 form of an ASCII string is the string itself. *)
Lemma utf8_encode_ascii (object s : pystr) :
  Forall (fun c => c < 128) s ->
  forall pos, Codec.utf8_encode_from object pos s = Returns s.
Proof.
  induction 1 as [|c s Hc _ IH]; intros pos; cbn [Codec.utf8_encode_from].
  - reflexivity.
  - unfold Codec.utf8_encode_char. settle_tests. rewrite IH. reflexivity.
Qed.

Lemma printable_below_128 (s : pystr) :
  Forall printable s -> Forall (fun c => c < 128) s.
Proof.
  apply Forall_impl. unfold printable. intros c Hc. lia.
Qed.

(** [json.dumps(body).encode()] never fails in [encode]: the text is
    printable ASCII and its bytes are its characters. *)
Lemma dumps_encode (body : pyvalue) (text : pystr) :
  Json.dumps body = Returns text ->
  Forall printable text /\ Codec.utf8_encode text = Returns text.
Proof.
  intros H. pose proof (encode_printable body text H) as Hp.
  split; [exact Hp|].
  exact (utf8_encode_ascii text text (printable_below_128 text Hp) 0).
Qed.

(** [publish_body] step by step, with the encoding step settled: the
    bytes handed to [publish] are the characters of the JSON text. *)
Lemma publish_body_steps {S} (client : client S) (body project_id topic : pyvalue)
  (w : world S) :
  publish_body client body project_id topic w =
  match topic_path client project_id topic (service w) with
  | (Raises e, s1) => (Raises (surfaced e), after_path w project_id topic s1)
  | (Returns path, s1) =>
      match Json.dumps body with
      | Raises e => (Raises (surfaced e), after_path w project_id topic s1)
      | Returns text =>
          match publish client path text s1 with
          | (Raises e, s2) =>
              (Raises (surfaced e), after_publish w project_id topic s2 path text)
          | (Returns _, s2) =>
              (Returns PyNone, after_publish w project_id topic s2 path text)
          end
      end
  end.
Proof.
  rewrite publish_body_run.
  destruct (topic_path client project_id topic (service w)) as [[path|e] s1];
    [|reflexivity].
  destruct (Json.dumps body) as [text|e] eqn:Hdumps; [|reflexivity].
  now rewrite (proj2 (dumps_encode body text Hdumps)).
Qed.

(* ------------------------------------------------------------------ *)
(** ** The test [needle in hay] *)

Lemma startswith_spec (s prefix : pystr) :
  startswith s prefix = true <-> exists rest, s = prefix ++ rest.
Proof.
  revert s. induction prefix as [|p prefix IH]; intros s.
  - split; [intros _; now exists s|intros _; now destruct s].
  - destruct s as [|c s]; cbn [startswith].
    + split; [discriminate|]. intros [rest H]. discriminate H.
    + rewrite andb_true_iff, Z.eqb_eq, IH. split.
      * intros [-> [rest ->]]. now exists rest.
      * intros [rest H]. injection H as -> ->. split; [reflexivity|now exists rest].
Qed.

(** [contains needle hay] holds exactly when [needle] is a contiguous
    part of [hay]. *)
Lemma contains_spec (needle hay : pystr) :
  contains needle hay = true <-> exists before after, hay = before ++ needle ++ after.
Proof.
  induction hay as [|c hay IH].
  - cbn [contains]. rewrite orb_false_r, startswith_spec. split.
    + intros [rest H]. now exists [], rest.
    + intros (before & after & H). destruct before as [|b before]; [|discriminate H].
      now exists after.
  - cbn [contains]. rewrite orb_true_iff, startswith_spec, IH. split.
    + intros [[rest H]|(before & after & H)].
      * now exists [], rest.
      * exists (c :: before), after. now rewrite H.
    + intros (before & after & H). destruct before as [|b before].
      * left. now exists after.
      * right. injection H as _ H. now exists before, after.
Qed.

(* ------------------------------------------------------------------ *)
(** ** More on [publish_body] *)

Lemma surfaced_base_exception (e : exn) :
  exn_is_Exception e = false -> surfaced e = e.
Proof. unfold surfaced. now intros ->. Qed.


(** X1.  With a path that resolves, a payload [json.dumps] accepts and
    a [publish] that returns, [publish_body] returns [None]; [publish]
    was called once, with the resolved path and with the characters of
    the JSON text as bytes ([encode] cannot fail on that text). *)
Theorem publish_body_succeeds {S} (client : client S)
  (body project_id topic : pyvalue) (w : world S)
  (path future : pyvalue) (s1 s2 : S) (text : pystr) :
  topic_path client project_id topic (service w) = (Returns path, s1) ->
  Json.dumps body = Returns text ->
  publish client path text s1 = (Returns future, s2) ->
  publish_body client body project_id topic w
    = (Returns PyNone, after_publish w project_id topic s2 path text).
Proof.
  intros Hpath Hdumps Hpublish.
  now rewrite publish_body_steps, Hpath, Hdumps, Hpublish.
Qed.

Lemma publish_body_succeeds_witness :
  publish_body Fixtures.accepting_client Fixtures.hello Fixtures.proj1 Fixtures.logs
    Fixtures.start
  = (Returns PyNone,
     after_publish Fixtures.start Fixtures.proj1 Fixtures.logs
       [(PyStr (py "projects/proj1/topics/logs"), Fixtures.hello_json)]
       (PyStr (py "projects/proj1/topics/logs")) Fixtures.hello_json).
Proof.
  apply (publish_body_succeeds Fixtures.accepting_client Fixtures.hello Fixtures.proj1
           Fixtures.logs Fixtures.start (PyStr (py "projects/proj1/topics/logs"))
           (PyObject "Future") []); reflexivity.
Defined.



(** X3.  Whenever [publish_body] has called [publish], the bytes it
    passed are the text [json.dumps] gave for the payload, and every one
    of them is printable ASCII, whatever characters the payload holds. *)
Theorem publish_body_data_printable {S} (client : client S)
  (body project_id topic : pyvalue) (w : world S) (path : pyvalue) (data : pybytes) :
  calls (snd (publish_body client body project_id topic w))
    = calls w ++ [TopicPath project_id topic; Publish path data] ->
  Json.dumps body = Returns data /\ Forall printable data.
Proof.
  rewrite publish_body_steps.
  destruct (topic_path client project_id topic (service w)) as [[path'|e1] s1].
  - destruct (Json.dumps body) as [text|e2] eqn:Hdumps.
    + destruct (publish client path' text s1) as [[future|e3] s2]; cbn [snd];
        unfold after_publish; cbn [calls]; intros H;
        apply app_inv_head in H; injection H as _ <-;
        (split; [reflexivity|exact (proj1 (dumps_encode body text Hdumps))]).
    + cbn [snd]. unfold after_path. cbn [calls]. intros H.
      apply app_inv_head in H. discriminate H.
  - cbn [snd]. unfold after_path. cbn [calls]. intros H.
    apply app_inv_head in H. discriminate H.
Qed.

Lemma publish_body_data_printable_witness :
  Json.dumps (PyDict [(PyStr [233; 10], PyStr [8364; 128512])])
    = Returns (py "{" ++ [34; 92] ++ py "u00e9" ++ [92] ++ py "n" ++ [34]
               ++ py ": " ++ [34; 92] ++ py "u20ac" ++ [92] ++ py "ud83d"
               ++ [92] ++ py "ude00" ++ [34] ++ py "}")
  /\ Forall printable
       (py "{" ++ [34; 92] ++ py "u00e9" ++ [92] ++ py "n" ++ [34]
        ++ py ": " ++ [34; 92] ++ py "u20ac" ++ [92] ++ py "ud83d"
        ++ [92] ++ py "ude00" ++ [34] ++ py "}").
Proof.
  apply (publish_body_data_printable Fixtures.accepting_client
           (PyDict [(PyStr [233; 10], PyStr [8364; 128512])])
           Fixtures.proj1 Fixtures.logs Fixtures.start
           (PyStr (py "projects/proj1/topics/logs"))).
  reflexivity.
Defined.

(** X4.  An exception that is no instance of [Exception] goes through
    [publish_body] untouched, from [topic_path] and from [publish]
    alike, with or without ["200"] in its text. *)
Theorem publish_body_passes_base_exception {S} (client : client S)
  (body project_id topic : pyvalue) (w : world S) (e : exn) :
  exn_is_Exception e = false ->
  (exists s1, topic_path client project_id topic (service w) = (Raises e, s1))
  \/ (exists path s1 text s2,
        topic_path client project_id topic (service w) = (Returns path, s1)
        /\ Json.dumps body = Returns text
        /\ publish client path text s1 = (Raises e, s2)) ->
  fst (publish_body client body project_id topic w) = Raises e.
Proof.
  intros Hbase [[s1 Hpath]|(path & s1 & text & s2 & Hpath & Hdumps & Hpublish)];
    rewrite publish_body_steps, Hpath.
  - cbn [fst]. now rewrite surfaced_base_exception.
  - rewrite Hdumps, Hpublish. cbn [fst]. now rewrite surfaced_base_exception.
Qed.

Lemma publish_body_passes_base_exception_witness :
  fst (publish_body (Fixtures.rejecting_client Fixtures.system_exit_200)
         Fixtures.hello Fixtures.proj1 Fixtures.logs Fixtures.start)
    = Raises Fixtures.system_exit_200
  /\ fst (publish_body (Fixtures.unresolving_client Fixtures.keyboard_interrupt_200)
         Fixtures.hello Fixtures.proj1 Fixtures.logs Fixtures.start)
    = Raises Fixtures.keyboard_interrupt_200.
Proof.
  split.
  - apply publish_body_passes_base_exception; [reflexivity|right].
    exists (PyStr (py "projects/proj1/topics/logs")), [], Fixtures.hello_json, [].
    repeat split.
  - apply publish_body_passes_base_exception; [reflexivity|left].
    exists []. reflexivity.
Defined.

(** X5.  When [topic_path] raises, the payload is never looked at:
    [publish_body] ends the same way for every payload, also one that
    [json.dumps] would refuse, and [publish] is not called. *)
Theorem publish_body_path_failure_first {S} (client : client S)
  (project_id topic : pyvalue) (w : world S) (e : exn) (s1 : S) :
  topic_path client project_id topic (service w) = (Raises e, s1) ->
  forall body body' : pyvalue,
    publish_body client body project_id topic w
      = publish_body client body' project_id topic w
    /\ calls (snd (publish_body client body project_id topic w))
       = calls w ++ [TopicPath project_id topic].
Proof.
  intros Hpath body body'. rewrite !publish_body_steps, Hpath. now split.
Qed.

Lemma publish_body_path_failure_first_witness :
  publish_body (Fixtures.unresolving_client Fixtures.forbidden)
    Fixtures.unserializable_200 Fixtures.proj1 Fixtures.logs Fixtures.start
  = publish_body (Fixtures.unresolving_client Fixtures.forbidden)
      Fixtures.hello Fixtures.proj1 Fixtures.logs Fixtures.start
  /\ calls (snd (publish_body (Fixtures.unresolving_client Fixtures.forbidden)
                   Fixtures.unserializable_200 Fixtures.proj1 Fixtures.logs
                   Fixtures.start))
     = [TopicPath Fixtures.proj1 Fixtures.logs].
Proof.
  apply (publish_body_path_failure_first (Fixtures.unresolving_client Fixtures.forbidden)
           Fixtures.proj1 Fixtures.logs Fixtures.start Fixtures.forbidden []).
  reflexivity.
Defined.

(** X6.  [publish_body] prints nothing: on every path, returning or
    raising, [sys.stderr] is as it was. *)
Theorem publish_body_keeps_stderr {S} (client : client S)
  (body project_id topic : pyvalue) (w : world S) :
  stderr (snd (publish_body client body project_id topic w)) = stderr w.
Proof.
  rewrite publish_body_steps.
  destruct (topic_path client project_id topic (service w)) as [[path|e1] s1];
    [|reflexivity].
  destruct (Json.dumps body) as [text|e2]; [|reflexivity].
  destruct (publish client path text s1) as [[future|e3] s2]; reflexivity.
Qed.

(** X7.  The test on the text is a test for a contiguous part: when
    [publish] raises an instance of [Exception] whose [str] returns
    anything, then ["200"], then anything, [publish_body] raises
    [RecoverableError()]; when the text has no such part, it raises the
    exception itself. *)
Theorem publish_body_substring_rule {S} (client : client S)
  (body project_id topic : pyvalue) (w : world S)
  (path : pyvalue) (s1 s2 : S) (text : pystr) (e : exn) (err_str : pystr) :
  topic_path client project_id topic (service w) = (Returns path, s1) ->
  Json.dumps body = Returns text ->
  publish client path text s1 = (Raises e, s2) ->
  exn_is_Exception e = true ->
  py_str e = Returns err_str ->
  ((exists before after, err_str = before ++ py "200" ++ after) ->
   fst (publish_body client body project_id topic w)
     = Raises (during e RecoverableError))
  /\ (~ (exists before after, err_str = before ++ py "200" ++ after) ->
      fst (publish_body client body project_id topic w) = Raises e).
Proof.
  intros Hpath Hdumps Hpublish Hexc Hstr.
  rewrite publish_body_steps, Hpath, Hdumps, Hpublish. cbn [fst]. split.
  - intros H. apply contains_spec in H.
    now rewrite (surfaced_recoverable e err_str).
  - intros H. rewrite (surfaced_permanent e err_str); [reflexivity|exact Hstr|].
    destruct (contains (py "200") err_str) eqn:H200; [|reflexivity].
    exfalso. apply H. now apply contains_spec.
Qed.

Lemma publish_body_substring_rule_witness :
  fst (publish_body (Fixtures.rejecting_client Fixtures.deadline_exceeded)
         Fixtures.hello Fixtures.proj1 Fixtures.logs Fixtures.start)
  = Raises (during Fixtures.deadline_exceeded RecoverableError).
Proof.
  apply (proj1 (publish_body_substring_rule
                  (Fixtures.rejecting_client Fixtures.deadline_exceeded)
                  Fixtures.hello Fixtures.proj1 Fixtures.logs Fixtures.start
                  (PyStr (py "projects/proj1/topics/logs")) [] [] Fixtures.hello_json
                  Fixtures.deadline_exceeded (py "Deadline exceeded (200)")
                  eq_refl eq_refl eq_refl eq_refl eq_refl)).
  exists (py "Deadline exceeded ("), (py ")"). reflexivity.
Defined.

(* ------------------------------------------------------------------ *)
(** ** More on [check_topic] *)

(** X8.  [check_topic] calls [topic_path] once and nothing else of the
    client: whether it returns or raises, the log grows by that one
    call, [publish] is not called, and the service is left as
    [topic_path] left it. *)
Theorem check_topic_only_resolves {S} (client : client S)
  (project_id topic : pyvalue) (w : world S) :
  calls (snd (check_topic client project_id topic w))
    = calls w ++ [TopicPath project_id topic]
  /\ publish_count (calls (snd (check_topic client project_id topic w)))
     = publish_count (calls w)
  /\ service (snd (check_topic client project_id topic w))
     = snd (topic_path client project_id topic (service w)).
Proof.
  rewrite check_topic_run.
  destruct (topic_path client project_id topic (service w)) as [[path|e] s1];
    [|destruct (exn_is_Exception e)];
    cbn [snd]; unfold after_path; cbn [calls service];
    rewrite publish_count_app; cbn; (split; [reflexivity|split; [lia|reflexivity]]).
Qed.

(** X9.  The answer of [check_topic] tells what [topic_path] did: it is
    [True] exactly when [topic_path] returned, [False] exactly when it
    raised an instance of [Exception], and [check_topic] raises [e]
    exactly when [topic_path] raised [e] and [e] is no instance of
    [Exception]. *)
Theorem check_topic_answer {S} (client : client S)
  (project_id topic : pyvalue) (w : world S) :
  (fst (check_topic client project_id topic w) = Returns (PyBool true)
   <-> exists path, fst (topic_path client project_id topic (service w)) = Returns path)
  /\ (fst (check_topic client project_id topic w) = Returns (PyBool false)
      <-> exists e, fst (topic_path client project_id topic (service w)) = Raises e
                    /\ exn_is_Exception e = true)
  /\ (forall e,
        fst (check_topic client project_id topic w) = Raises e
        <-> fst (topic_path client project_id topic (service w)) = Raises e
            /\ exn_is_Exception e = false).
Proof.
  rewrite check_topic_run.
  destruct (topic_path client project_id topic (service w)) as [[path|e0] s1];
    [|destruct (exn_is_Exception e0) eqn:Hexc]; cbn [fst].
  - split; [|split].
    + split; [intros _; now exists path|reflexivity].
    + split; [discriminate|]. intros (e & H & _). discriminate H.
    + intros e. split; [discriminate|]. intros [H _]. discriminate H.
  - split; [|split].
    + split; [discriminate|]. intros [path H]. discriminate H.
    + split; [intros _; now exists e0|reflexivity].
    + intros e. split; [discriminate|]. intros [H Hbase].
      injection H as <-. congruence.
  - split; [|split].
    + split; [discriminate|]. intros [path H]. discriminate H.
    + split; [discriminate|]. intros (e & H & He). injection H as <-. congruence.
    + intros e. split.
      * intros H. injection H as <-. now split.
      * intros [H _]. exact H.
Qed.

(** X10.  [check_topic] prints the traceback of the exception it
    swallows and nothing else: [sys.stderr] gains that one exception
    when the answer is [False], and is as it was when the answer is
    [True] or when an exception goes through. *)
Theorem check_topic_stderr {S} (client : client S)
  (project_id topic : pyvalue) (w : world S) :
  stderr (snd (check_topic client project_id topic w))
  = stderr w ++
    match topic_path client project_id topic (service w) with
    | (Raises e, _) => if exn_is_Exception e then [e] else []
    | (Returns _, _) => []
    end.
Proof.
  rewrite check_topic_run.
  destruct (topic_path client project_id topic (service w)) as [[path|e] s1];
    [|destruct (exn_is_Exception e)];
    cbn [snd]; unfold after_path; cbn [stderr];
    now rewrite ?app_nil_r.
Qed.

(** X11.  [publish_body] does not reuse what [check_topic] found: after
    a [check_topic] that answered [True], a [publish_body] that returns
    has resolved the path a second time, and the log holds the two
    resolutions and then the one [publish]. *)
Theorem check_topic_then_publish_body {S} (client : client S)
  (body project_id topic : pyvalue) (w w1 w2 : world S) (v : pyvalue) :
  check_topic client project_id topic w = (Returns (PyBool true), w1) ->
  publish_body client body project_id topic w1 = (Returns v, w2) ->
  exists path text,
    Json.dumps body = Returns text
    /\ calls w2 = calls w ++ [TopicPath project_id topic; TopicPath project_id topic;
                              Publish path text]
    /\ stderr w2 = stderr w.
Proof.
  intros Hcheck Hpublish.
  pose proof (check_topic_run client project_id topic w) as Hrun.
  rewrite Hcheck in Hrun.
  destruct (topic_path client project_id topic (service w)) as [[path0|e0] s0];
    [|destruct (exn_is_Exception e0); discriminate Hrun].
  injection Hrun as ->.
  destruct (publish_body_returns_inv client body project_id topic _ w2 v Hpublish)
    as (path & s1 & text & data & future & s2 & _ & Hdumps & Hencode & _ & _ & ->).
  rewrite (proj2 (dumps_encode body text Hdumps)) in Hencode.
  apply Returns_eq in Hencode. subst data.
  exists path, text. split; [exact Hdumps|].
  unfold after_publish, after_path. cbn [calls stderr].
  rewrite <- app_assoc. now split.
Qed.

Lemma check_topic_then_publish_body_witness :
  exists path text,
    Json.dumps Fixtures.hello = Returns text
    /\ calls (snd (publish_body Fixtures.accepting_client Fixtures.hello
                     Fixtures.proj1 Fixtures.logs
                     (snd (check_topic Fixtures.accepting_client Fixtures.proj1
                             Fixtures.logs Fixtures.start))))
       = calls Fixtures.start
         ++ [TopicPath Fixtures.proj1 Fixtures.logs;
             TopicPath Fixtures.proj1 Fixtures.logs; Publish path text]
    /\ stderr (snd (publish_body Fixtures.accepting_client Fixtures.hello
                      Fixtures.proj1 Fixtures.logs
                      (snd (check_topic Fixtures.accepting_client Fixtures.proj1
                              Fixtures.logs Fixtures.start))))
       = stderr Fixtures.start.
Proof.
  exact (check_topic_then_publish_body Fixtures.accepting_client Fixtures.hello
           Fixtures.proj1 Fixtures.logs Fixtures.start _ _ PyNone eq_refl eq_refl).
Defined.

(* ------------------------------------------------------------------ *)
(** ** More on [compat_urlsafe_b64encode] *)

Lemma written_digit_urlsafe (n : Z) :
  0 <= n < 64 -> is_urlsafe_char (written_digit n) = true.
Proof.
  intros H. destruct (digit_cases n H) as (k & Hk & ->).
  do 64 (destruct k as [|k]; [vm_compute; reflexivity|]).
  lia.
Qed.

(** The text [urlsafe_b64encode] writes: its characters and its length. *)
Lemma urlsafe_b64encode_shape (bs : pybytes) :
  is_bytes bs ->
  Forall (fun c => is_urlsafe_char c = true) (Base64.urlsafe_b64encode bs)
  /\ Z.of_nat (List.length (Base64.urlsafe_b64encode bs))
     = 4 * ((Z.of_nat (List.length bs) + 2) / 3).
Proof.
  unfold is_bytes, is_octet, Base64.urlsafe_b64encode, Base64.b64encode.
  induction bs as [|a|a b|a b c bs IH] using list_ind3; intros Hbs.
  - split; [constructor|reflexivity].
  - apply Forall_cons_iff in Hbs as [Ha _].
    cbn [Base64.b2a_base64 map]. split; [|reflexivity].
    repeat (constructor;
            [first [apply written_digit_urlsafe; div_lia | vm_compute; reflexivity]|]).
    constructor.
  - apply Forall_cons_iff in Hbs as [Ha Hbs].
    apply Forall_cons_iff in Hbs as [Hb _].
    cbn [Base64.b2a_base64 map]. split; [|reflexivity].
    repeat (constructor;
            [first [apply written_digit_urlsafe; div_lia | vm_compute; reflexivity]|]).
    constructor.
  - apply Forall_cons_iff in Hbs as [Ha Hbs].
    apply Forall_cons_iff in Hbs as [Hb Hbs].
    apply Forall_cons_iff in Hbs as [Hc Hbs].
    destruct (IH Hbs) as [IHchars IHlen].
    cbn [Base64.b2a_base64 map app List.length]. split.
    + do 4 (constructor; [apply written_digit_urlsafe; div_lia|]).
      exact IHchars.
    + rewrite !Nat2Z.inj_succ, IHlen. div_lia.
Qed.

(** What the Python 3 branch returns is [urlsafe_b64encode] of the
    UTF-8 form. *)
Lemma compat_py3_returns (version_major : Z) (v r : pystr) :
  3 <= version_major ->
  is_str v ->
  compat_urlsafe_b64encode version_major v = Returns r ->
  exists b, Codec.utf8_encode v = Returns b /\ is_bytes b
            /\ r = Base64.urlsafe_b64encode b.
Proof.
  intros Hpy3 Hstr. unfold compat_urlsafe_b64encode. settle_tests.
  destruct (Codec.utf8_encode v) as [b|e] eqn:Hb; cbn [obind]; [|discriminate].
  pose proof (utf8_encode_octets v v Hstr 0 b Hb) as Hoct.
  unfold Codec.ascii_decode.
  rewrite (ascii_decode_id _ _ (urlsafe_b64encode_ascii b Hoct) 0).
  intros H. apply Returns_eq in H. now exists b.
Qed.

(** X12.  On Python 2 [compat_urlsafe_b64encode] returns for every
    byte string; [urlsafe_b64decode] gives the byte string back, so the
    encoding is one-to-one, and the result has four characters for every
    three bytes, the last group rounded up. *)
Theorem compat_py2_roundtrip (version_major : Z) (v : pybytes) :
  version_major < 3 ->
  is_bytes v ->
  (exists r,
     compat_urlsafe_b64encode version_major v = Returns r
     /\ Base64.urlsafe_b64decode_bytes r = Returns v
     /\ Z.of_nat (List.length r) = 4 * ((Z.of_nat (List.length v) + 2) / 3))
  /\ (forall v' : pybytes,
        is_bytes v' ->
        compat_urlsafe_b64encode version_major v'
          = compat_urlsafe_b64encode version_major v ->
        v' = v).
Proof.
  intros Hpy2 Hv.
  assert (Hrun : forall x, compat_urlsafe_b64encode version_major x
                           = Returns (Base64.urlsafe_b64encode x)).
  { intros x. unfold compat_urlsafe_b64encode. settle_tests. reflexivity. }
  split.
  - exists (Base64.urlsafe_b64encode v). split; [apply Hrun|]. split.
    + exact (proj1 (urlsafe_b64decode_encode v Hv)).
    + exact (proj2 (urlsafe_b64encode_shape v Hv)).
  - intros v' Hv' Heq. rewrite !Hrun in Heq. apply Returns_eq in Heq.
    pose proof (proj1 (urlsafe_b64decode_encode v' Hv')) as H'.
    rewrite Heq, (proj1 (urlsafe_b64decode_encode v Hv)) in H'.
    now apply Returns_eq in H'.
Qed.

Lemma compat_py2_roundtrip_witness :
  exists r,
    compat_urlsafe_b64encode 2 [255; 254; 0; 104] = Returns r
    /\ Base64.urlsafe_b64decode_bytes r = Returns [255; 254; 0; 104]
    /\ Z.of_nat (List.length r) = 4 * ((Z.of_nat (List.length [255; 254; 0; 104]) + 2) / 3).
Proof.
  apply (compat_py2_roundtrip 2 [255; 254; 0; 104]).
  - lia.
  - repeat constructor; unfold is_octet; lia.
Defined.

(** X13.  Whatever [compat_urlsafe_b64encode] returns is made of
    letters, digits, [-], [_] and [=] only (no [+], no [/], nothing
    outside ASCII), and its length is a multiple of four. *)
Theorem compat_output_urlsafe (version_major : Z) (v r : list Z) :
  (if 3 <=? version_major then is_str v else is_bytes v) ->
  compat_urlsafe_b64encode version_major v = Returns r ->
  Forall (fun c => is_urlsafe_char c = true) r
  /\ Z.of_nat (List.length r) mod 4 = 0.
Proof.
  destruct (Z.leb_spec 3 version_major) as [Hpy3|Hpy2]; intros Hv Hr.
  - destruct (compat_py3_returns version_major v r Hpy3 Hv Hr) as (b & _ & Hb & ->).
    destruct (urlsafe_b64encode_shape b Hb) as [Hchars Hlen].
    split; [exact Hchars|]. rewrite Hlen. div_lia.
  - unfold compat_urlsafe_b64encode in Hr. revert Hr. settle_tests.
    intros Hr. apply Returns_eq in Hr. subst r.
    destruct (urlsafe_b64encode_shape v Hv) as [Hchars Hlen].
    split; [exact Hchars|]. rewrite Hlen. div_lia.
Qed.

Lemma compat_output_urlsafe_witness :
  Forall (fun c => is_urlsafe_char c = true) (py "w7_Dvj8-")
  /\ Z.of_nat (List.length (py "w7_Dvj8-")) mod 4 = 0.
Proof.
  apply (compat_output_urlsafe 3 [255; 254; 63; 62]).
  - cbn. repeat constructor; unfold is_code_point; lia.
  - reflexivity.
Defined.

Lemma utf8_encode_char_surrogate (c : Z) :
  is_surrogate c -> Codec.utf8_encode_char c = None.
Proof.
  unfold is_surrogate, Codec.utf8_encode_char. intros H. settle_tests. reflexivity.
Qed.

(** The encoder stops at the first surrogate, and reports the run of
    surrogates that starts there. *)
Lemma utf8_encode_from_surrogate (object before after : pystr) (c : Z) :
  Forall (fun c' => ~ is_surrogate c') before ->
  is_surrogate c ->
  forall pos,
    Codec.utf8_encode_from object pos (before ++ c :: after)
    = Raises (Codec.UnicodeEncodeError "utf-8" object
                (pos + Z.of_nat (List.length before))
                (pos + Z.of_nat (List.length before) + 1
                 + Codec.run_length Codec.is_surrogate_code after)
                "surrogates not allowed").
Proof.
  intros Hbefore Hc.
  induction Hbefore as [|c' before Hc' _ IH]; intros pos;
    cbn [app Codec.utf8_encode_from List.length].
  - rewrite (utf8_encode_char_surrogate c Hc).
    replace (pos + Z.of_nat 0) with pos by lia. reflexivity.
  - destruct (utf8_encode_char_total c' Hc') as [cb ->].
    rewrite IH. cbn [obind].
    replace (pos + 1 + Z.of_nat (List.length before))
      with (pos + Z.of_nat (S (List.length before))) by lia.
    reflexivity.
Qed.

(** A string has no surrogate, or it has a first one. *)
Lemma first_surrogate (v : pystr) :
  Forall (fun c => ~ is_surrogate c) v
  \/ exists before c after,
       v = before ++ c :: after
       /\ Forall (fun c' => ~ is_surrogate c') before
       /\ is_surrogate c.
Proof.
  induction v as [|c v IH].
  - left. constructor.
  - assert (Hdec : is_surrogate c \/ ~ is_surrogate c) by (unfold is_surrogate; lia).
    destruct Hdec as [Hc|Hc].
    + right. exists [], c, v. split; [reflexivity|split; [constructor|exact Hc]].
    + destruct IH as [IH|(before & c' & after & -> & Hbefore & Hc')].
      * left. now constructor.
      * right. exists (c :: before), c', after.
        split; [reflexivity|]. split; [now constructor|exact Hc'].
Qed.

(** X14.  On Python 3, a string whose first surrogate is [c], after a
    part [before] without any, makes [compat_urlsafe_b64encode] raise
    the [UnicodeEncodeError] of the UTF-8 codec: it is about the whole
    string, it starts at the position of [c] and it spans the run of
    surrogates that begins there. *)
Theorem compat_surrogate_error (version_major : Z) (before after : pystr) (c : Z) :
  3 <= version_major ->
  Forall (fun c' => ~ is_surrogate c') before ->
  is_surrogate c ->
  compat_urlsafe_b64encode version_major (before ++ c :: after)
  = Raises (Codec.UnicodeEncodeError "utf-8" (before ++ c :: after)
              (Z.of_nat (List.length before))
              (Z.of_nat (List.length before) + 1
               + Codec.run_length Codec.is_surrogate_code after)
              "surrogates not allowed").
Proof.
  intros Hpy3 Hbefore Hc. unfold compat_urlsafe_b64encode. settle_tests.
  unfold Codec.utf8_encode.
  rewrite (utf8_encode_from_surrogate _ before after c Hbefore Hc 0).
  reflexivity.
Qed.

Lemma compat_surrogate_error_witness :
  compat_urlsafe_b64encode 3 ([104; 105] ++ 55357 :: [56832; 33])
  = Raises (Codec.UnicodeEncodeError "utf-8" [104; 105; 55357; 56832; 33] 2 4
              "surrogates not allowed").
Proof.
  apply (compat_surrogate_error 3 [104; 105] [56832; 33] 55357).
  - lia.
  - repeat constructor; unfold is_surrogate; lia.
  - unfold is_surrogate; lia.
Defined.

(** X15.  On Python 3 [compat_urlsafe_b64encode] returns for a string
    exactly when the string holds no surrogate code point. *)
Theorem compat_py3_returns_iff (version_major : Z) (v : pystr) :
  3 <= version_major ->
  is_str v ->
  ((exists r, compat_urlsafe_b64encode version_major v = Returns r)
   <-> Forall (fun c => ~ is_surrogate c) v).
Proof.
  intros Hpy3 Hstr. split.
  - intros [r Hr].
    destruct (first_surrogate v) as [H|(before & c & after & -> & Hbefore & Hc)];
      [exact H|].
    unfold compat_urlsafe_b64encode, Codec.utf8_encode in Hr. revert Hr. settle_tests.
    rewrite (utf8_encode_from_surrogate _ before after c Hbefore Hc 0).
    discriminate.
  - intros Hsur.
    destruct (compat_urlsafe_b64encode_decode version_major v Hpy3 Hstr Hsur)
      as (r & Hr & _).
    now exists r.
Qed.

Lemma compat_py3_returns_iff_witness :
  (exists r, compat_urlsafe_b64encode 3 [104; 233; 8364] = Returns r)
  <-> Forall (fun c => ~ is_surrogate c) [104; 233; 8364].
Proof.
  apply (compat_py3_returns_iff 3 [104; 233; 8364]).
  - lia.
  - repeat constructor; unfold is_code_point; lia.
Defined.

(** X16.  On an ASCII string the two branches agree: Python 3 and
    Python 2 return the same text, so the function is the same on both
    for such input. *)
Theorem compat_versions_agree_on_ascii (py2 py3 : Z) (v : list Z) :
  py2 < 3 ->
  3 <= py3 ->
  Forall (fun c => 0 <= c < 128) v ->
  compat_urlsafe_b64encode py3 v = compat_urlsafe_b64encode py2 v
  /\ compat_urlsafe_b64encode py3 v = Returns (Base64.urlsafe_b64encode v).
Proof.
  intros Hpy2 Hpy3 Hv.
  assert (Hlow : Forall (fun c => c < 128) v)
    by (revert Hv; apply Forall_impl; intros c Hc; lia).
  assert (Hoct : is_bytes v)
    by (revert Hv; apply Forall_impl; unfold is_octet; intros c Hc; lia).
  assert (H3 : compat_urlsafe_b64encode py3 v = Returns (Base64.urlsafe_b64encode v)).
  { unfold compat_urlsafe_b64encode. settle_tests.
    unfold Codec.utf8_encode. rewrite (utf8_encode_ascii v v Hlow 0). cbn [obind].
    exact (ascii_decode_id _ _ (urlsafe_b64encode_ascii v Hoct) 0). }
  split; [|exact H3].
  rewrite H3. unfold compat_urlsafe_b64encode. settle_tests. reflexivity.
Qed.

Lemma compat_versions_agree_on_ascii_witness :
  compat_urlsafe_b64encode 3 (py "hello?>~") = compat_urlsafe_b64encode 2 (py "hello?>~")
  /\ compat_urlsafe_b64encode 3 (py "hello?>~")
     = Returns (Base64.urlsafe_b64encode (py "hello?>~")).
Proof.
  apply compat_versions_agree_on_ascii.
  - lia.
  - lia.
  - cbn. repeat constructor; lia.
Defined.

Lemma b2a_base64_app (bs1 bs2 : pybytes) :
  Z.of_nat (List.length bs1) mod 3 = 0 ->
  Base64.b2a_base64 (bs1 ++ bs2) = Base64.b2a_base64 bs1 ++ Base64.b2a_base64 bs2.
Proof.
  induction bs1 as [|a|a b|a b c bs1 IH] using list_ind3; intros Hlen.
  - reflexivity.
  - cbn in Hlen. discriminate Hlen.
  - cbn in Hlen. discriminate Hlen.
  - cbn [app Base64.b2a_base64]. rewrite IH; [reflexivity|].
    cbn [List.length] in Hlen. rewrite !Nat2Z.inj_succ in Hlen. div_lia.
Qed.

(** X17.  On Python 2 the encoding can be done piece by piece: when the
    first piece has a length that is a multiple of three, the encoding
    of two pieces put together is the two encodings put together. *)
Theorem compat_py2_concatenation (version_major : Z) (v1 v2 : pybytes) :
  version_major < 3 ->
  Z.of_nat (List.length v1) mod 3 = 0 ->
  exists r1 r2,
    compat_urlsafe_b64encode version_major v1 = Returns r1
    /\ compat_urlsafe_b64encode version_major v2 = Returns r2
    /\ compat_urlsafe_b64encode version_major (v1 ++ v2) = Returns (r1 ++ r2).
Proof.
  intros Hpy2 Hlen.
  exists (Base64.urlsafe_b64encode v1), (Base64.urlsafe_b64encode v2).
  unfold compat_urlsafe_b64encode. settle_tests.
  split; [reflexivity|split; [reflexivity|]].
  unfold Base64.urlsafe_b64encode, Base64.b64encode.
  now rewrite b2a_base64_app, map_app.
Qed.

Lemma compat_py2_concatenation_witness :
  exists r1 r2,
    compat_urlsafe_b64encode 2 [255; 254; 253] = Returns r1
    /\ compat_urlsafe_b64encode 2 [252; 251] = Returns r2
    /\ compat_urlsafe_b64encode 2 ([255; 254; 253] ++ [252; 251]) = Returns (r1 ++ r2).
Proof.
  apply compat_py2_concatenation.
  - lia.
  - reflexivity.
Defined.

(** X18.  Two calls of [publish_body] that return submit their
    payloads in the order of the calls, each after a path resolution of
    its own: nothing is held back, batched or reordered. *)
Theorem publish_body_twice {S} (client : client S)
  (body1 body2 project_id topic : pyvalue) (w w1 w2 : world S) (v1 v2 : pyvalue) :
  publish_body client body1 project_id topic w = (Returns v1, w1) ->
  publish_body client body2 project_id topic w1 = (Returns v2, w2) ->
  exists path1 path2 text1 text2,
    Json.dumps body1 = Returns text1
    /\ Json.dumps body2 = Returns text2
    /\ calls w2 = calls w ++ [TopicPath project_id topic; Publish path1 text1;
                              TopicPath project_id topic; Publish path2 text2].
Proof.
  intros H1 H2.
  destruct (publish_body_returns_inv client body1 project_id topic w w1 v1 H1)
    as (path1 & s1 & text1 & data1 & f1 & s1' & _ & Hd1 & He1 & _ & _ & ->).
  destruct (publish_body_returns_inv client body2 project_id topic _ w2 v2 H2)
    as (path2 & s2 & text2 & data2 & f2 & s2' & _ & Hd2 & He2 & _ & _ & ->).
  rewrite (proj2 (dumps_encode body1 text1 Hd1)) in He1. apply Returns_eq in He1.
  rewrite (proj2 (dumps_encode body2 text2 Hd2)) in He2. apply Returns_eq in He2.
  subst data1 data2.
  exists path1, path2, text1, text2.
  split; [exact Hd1|split; [exact Hd2|]].
  unfold after_publish. cbn [calls]. now rewrite <- app_assoc.
Qed.

Lemma publish_body_twice_witness :
  exists path1 path2 text1 text2,
    Json.dumps Fixtures.hello = Returns text1
    /\ Json.dumps (PyList [PyInt 1; PyNone]) = Returns text2
    /\ calls (snd (publish_body Fixtures.accepting_client (PyList [PyInt 1; PyNone])
                     Fixtures.proj1 Fixtures.logs
                     (snd (publish_body Fixtures.accepting_client Fixtures.hello
                             Fixtures.proj1 Fixtures.logs Fixtures.start))))
       = calls Fixtures.start
         ++ [TopicPath Fixtures.proj1 Fixtures.logs; Publish path1 text1;
             TopicPath Fixtures.proj1 Fixtures.logs; Publish path2 text2].
Proof.
  exact (publish_body_twice Fixtures.accepting_client Fixtures.hello
           (PyList [PyInt 1; PyNone]) Fixtures.proj1 Fixtures.logs
           Fixtures.start _ _ PyNone PyNone eq_refl eq_refl).
Defined.


